(** * FoilSkyBugs: the ingest-and-track engine, embedded and verified

    A shallow embedding of the parts of the FoilSkyBugs ADS-B logger that the
    design document makes promises about:

    - [utils/data_utils.py]    : [validate_icao], [normalize_icao];
    - [core/adsb_decoder.py]   : [Aircraft], [is_valid],
                                 [process_dump1090_json], [cleanup_old_aircraft];
    - [core/database.py]       : [store_aircraft_positions],
                                 [get_aircraft_positions], [update_statistics];
    - [core/foilskybugs.py]    : [start], [stop], [export_data] and the three
                                 exporters.

    Conventions of the embedding.

    - Python [str] values are [string]s of ASCII characters.  [str.upper] only
      moves the letters a-z, [str.strip] removes the ASCII characters for
      which [str.isspace] holds, and [int] and [float] skip the white space
      of C, which leaves out the four separators U+001C to U+001F.
    - Python numbers ([int] and [float] alike, which compare with one another
      by value) are the type [number]: a rational, the two infinities or
      NaN.  [float] and the division of two integers round to binary64.
    - An attribute or a key holds a value of its declared type, or [None].
    - A [datetime] is a number of microseconds since the epoch, in UTC.
    - The store is the SQLite file of the default configuration: a [Float]
      column keeps NaN as NULL, and an [Integer] column refuses an [int]
      that does not fit in 64 bits.
    - An exception that a method catches becomes the value the [except]
      branch returns; the clock read by [datetime.now] is an argument. *)

From Stdlib Require Import ZArith QArith Ascii String List Bool Lia Sorted.
From stdpp Require Import gmap strings list fin_maps.

Local Open Scope string_scope.
Local Open Scope Z_scope.

(** ** Python strings *)

Module PyStr.

Definition code (c : ascii) : N := N_of_ascii c.

Definition between (lo hi : N) (c : ascii) : bool :=
  ((lo <=? code c) && (code c <=? hi))%N.

(** [str.isspace] on one ASCII character: TAB..CR, FS..US and the space. *)
Definition isspace (c : ascii) : bool := between 9 13 c || between 28 32 c.

Definition upper_char (c : ascii) : ascii :=
  if between 97 122 c then ascii_of_N (code c - 32) else c.

Fixpoint upper (s : string) : string :=
  match s with
  | EmptyString => EmptyString
  | String c t => String (upper_char c) (upper t)
  end.

Fixpoint lstrip (s : string) : string :=
  match s with
  | EmptyString => EmptyString
  | String c t => if isspace c then lstrip t else s
  end.

Fixpoint rstrip (s : string) : string :=
  match s with
  | EmptyString => EmptyString
  | String c t =>
      match rstrip t with
      | EmptyString => if isspace c then EmptyString else String c EmptyString
      | r => String c r
      end
  end.

(** [s.strip()] *)
Definition strip (s : string) : string := rstrip (lstrip s).

(** [c * n] for a one-character string [c]. *)
Fixpoint replicate_char (n : nat) (c : ascii) : string :=
  match n with
  | O => EmptyString
  | S k => String c (replicate_char k c)
  end.

Fixpoint all_chars (p : ascii -> bool) (s : string) : bool :=
  match s with
  | EmptyString => true
  | String c t => p c && all_chars p t
  end.

(** Truthiness of a string: [not s] holds exactly for the empty string. *)
Definition str_truthy (s : string) : bool :=
  match s with EmptyString => false | _ => true end.

(** The value of a character as a digit, as CPython's [_PyLong_DigitValue]
    has it: 0-9, then a-z and A-Z for 10..35. *)
Definition digit_value (c : ascii) : option Z :=
  if between 48 57 c then Some (Z.of_N (code c) - 48)
  else if between 97 122 c then Some (Z.of_N (code c) - 87)
  else if between 65 90 c then Some (Z.of_N (code c) - 55)
  else None.

(** The digit loop of [int(s, 16)]: digits below the base, single
    underscores between them, nothing else up to the end of the string. *)
Fixpoint scan_digits (base : Z) (prev_underscore : bool) (acc : Z) (s : string)
  : option Z :=
  match s with
  | EmptyString => if prev_underscore then None else Some acc
  | String c t =>
      if Ascii.eqb c "_" then
        if prev_underscore then None else scan_digits base true acc t
      else
        match digit_value c with
        | Some d =>
            if d <? base then scan_digits base false (acc * base + d) t
            else None
        | None => None
        end
  end.

(** C's [isspace], which [int] and [float] use on an ASCII string: TAB..CR
    and the space, not FS..US. *)
Definition c_isspace (c : ascii) : bool :=
  between 9 13 c || Ascii.eqb c " ".

Fixpoint c_lstrip (s : string) : string :=
  match s with
  | EmptyString => EmptyString
  | String c t => if c_isspace c then c_lstrip t else s
  end.

Fixpoint c_rstrip (s : string) : string :=
  match s with
  | EmptyString => EmptyString
  | String c t =>
      match c_rstrip t with
      | EmptyString =>
          if c_isspace c then EmptyString else String c EmptyString
      | r => String c r
      end
  end.

(** The white space [int] and [float] skip on both sides of a literal. *)
Definition c_strip (s : string) : string := c_rstrip (c_lstrip s).

(** An optional sign: whether it is a minus, and the rest. *)
Definition skip_sign (s : string) : bool * string :=
  match s with
  | String c t =>
      if Ascii.eqb c "+" then (false, t)
      else if Ascii.eqb c "-" then (true, t)
      else (false, s)
  | EmptyString => (false, s)
  end.

(** The optional [0x] or [0X] of a base 16 literal; one underscore may
    follow it. *)
Definition skip_prefix16 (s : string) : string :=
  match s with
  | String c (String x t) =>
      if Ascii.eqb c "0" && (Ascii.eqb x "x" || Ascii.eqb x "X") then
        match t with
        | String u t' => if Ascii.eqb u "_" then t' else t
        | EmptyString => t
        end
      else s
  | _ => s
  end.

(** [int(s, 16)] on an ASCII string; [None] stands for [ValueError].  White
    space around the literal is skipped, a sign and a prefix are accepted,
    the digits may not start with an underscore and at least one digit is
    required. *)
Definition int_base16 (s : string) : option Z :=
  let '(negative, s2) := skip_sign (c_strip s) in
  match skip_prefix16 s2 with
  | EmptyString => None
  | String c t =>
      if Ascii.eqb c "_" then None
      else
        match scan_digits 16 false 0 (String c t) with
        | Some v => Some (if negative then - v else v)
        | None => None
        end
  end.

Definition is_hex_digit (c : ascii) : bool :=
  between 48 57 c || between 97 102 c || between 65 70 c.

Definition is_upper_hex_digit (c : ascii) : bool :=
  between 48 57 c || between 65 70 c.

End PyStr.

(** ** utils/data_utils.py *)

Module DataUtils.
Import PyStr.

(** [validate_icao(icao)], [icao] being [None] or a string. *)
Definition validate_icao (icao : option string) : bool :=
  match icao with
  | None => false
  | Some icao =>
      if negb (str_truthy icao) then false
      else
        let icao := upper (strip icao) in
        if negb (String.length icao =? 6)%nat then false
        else
          match int_base16 icao with
          | Some _ => true
          | None => false
          end
  end.

(** [normalize_icao(icao)]; the empty string is the failure value. *)
Definition normalize_icao (icao : string) : string :=
  if negb (str_truthy icao) then ""
  else
    let icao := upper (strip icao) in
    let padded := replicate_char (6 - String.length icao) "0" ++ icao in
    let icao :=
      if (String.length icao <? 6)%nat && validate_icao (Some padded)
      then padded else icao in
    if validate_icao (Some icao) then icao else "".

End DataUtils.

(** ** Python numbers *)

Module PyNum.

(** The value of an [int] or a [float]. *)
Inductive number :=
| Fin (q : Q)
| PosInf
| NegInf
| NaN.

Definition of_Z (z : Z) : number := Fin (inject_Z z).

(** [a <= b]; every comparison with NaN is false. *)
Definition num_le (a b : number) : bool :=
  match a, b with
  | NaN, _ | _, NaN => false
  | NegInf, _ => true
  | _, PosInf => true
  | Fin x, Fin y => Qle_bool x y
  | _, _ => false
  end.

(** [a < b] *)
Definition num_lt (a b : number) : bool :=
  match a, b with
  | NaN, _ | _, NaN => false
  | Fin x, Fin y => negb (Qle_bool y x)
  | NegInf, NegInf => false
  | NegInf, _ => true
  | PosInf, _ => false
  | Fin _, PosInf => true
  | Fin _, NegInf => false
  end.

(** [a > b] *)
Definition num_gt (a b : number) : bool := num_lt b a.

(** [lo <= x <= hi], Python's chained comparison. *)
Definition in_range (lo x hi : number) : bool := num_le lo x && num_le x hi.

(** Truthiness: zero is the only falsy number. *)
Definition num_truthy (x : number) : bool :=
  match x with
  | Fin q => negb (Qeq_bool q 0)
  | _ => true
  end.

(** The binary64 number nearest to the positive rational [a / d], ties to
    the even significand, and the infinity beyond the range.  The exponent
    [e] is the one for which [a / (d * 2 ^ e)] lies in [[2 ^ 52, 2 ^ 53)],
    not below -1074. *)
Definition round64_pos (a d : Z) : number :=
  let e0 := Z.log2 a - Z.log2 d - 52 in
  let reaches (e : Z) : bool :=
    if 0 <=? e then 2 ^ 52 * d * 2 ^ e <=? a
    else 2 ^ 52 * d <=? a * 2 ^ (- e) in
  let e1 := if reaches e0 then e0 else e0 - 1 in
  let e := Z.max e1 (-1074) in
  let num := if 0 <=? e then a else a * 2 ^ (- e) in
  let den := if 0 <=? e then d * 2 ^ e else d in
  let q := num / den in
  let r := num mod den in
  let m :=
    if 2 * r <? den then q
    else if den <? 2 * r then q + 1
    else if Z.even q then q else q + 1 in
  if 0 <=? e then
    if 2 ^ 1024 <=? m * 2 ^ e then PosInf else Fin (inject_Z (m * 2 ^ e))
  else Fin (Qred (Qmake m (Z.to_pos (2 ^ (- e))))).

Definition negate (x : number) : number :=
  match x with
  | Fin q => Fin (Qopp q)
  | PosInf => NegInf
  | NegInf => PosInf
  | NaN => NaN
  end.

(** The [float] a rational rounds to. *)
Definition round64 (q : Q) : number :=
  match Qnum q with
  | Z0 => Fin 0
  | Zpos a => round64_pos (Zpos a) (Zpos (Qden q))
  | Zneg a => negate (round64_pos (Zpos a) (Zpos (Qden q)))
  end.

(** [n / d] on two [int]s, [d] positive: the quotient, correctly rounded.
    (A quotient beyond the range of [float] raises [OverflowError]; the
    quotients taken here, of a sum of stored integers by their number, are
    far from it.) *)
Definition true_divide (n : Z) (d : positive) : number :=
  round64 (Qmake n d).

End PyNum.

(** ** [float(s)] and [s.split(',')] *)

Module PyParse.
Import PyStr PyNum.

Definition is_digit (c : ascii) : bool := between 48 57 c.

Definition lower_char (c : ascii) : ascii :=
  if between 65 90 c then ascii_of_N (code c + 32) else c.

Fixpoint lower (s : string) : string :=
  match s with
  | EmptyString => EmptyString
  | String c t => String (lower_char c) (lower t)
  end.

(** An underscore is accepted only between two digits. *)
Fixpoint underscores_ok (prev : ascii) (s : string) : bool :=
  match s with
  | EmptyString => negb (Ascii.eqb prev "_")
  | String c t =>
      if Ascii.eqb c "_" then is_digit prev && underscores_ok c t
      else (if Ascii.eqb prev "_" then is_digit c else true)
           && underscores_ok c t
  end.

Fixpoint remove_underscores (s : string) : string :=
  match s with
  | EmptyString => EmptyString
  | String c t =>
      if Ascii.eqb c "_" then remove_underscores t
      else String c (remove_underscores t)
  end.

(** The longest prefix of decimal digits, and the rest. *)
Fixpoint span_digits (s : string) : string * string :=
  match s with
  | EmptyString => (EmptyString, EmptyString)
  | String c t =>
      if is_digit c then
        let '(d, r) := span_digits t in (String c d, r)
      else (EmptyString, s)
  end.

Fixpoint decimal_value (acc : Z) (digits : string) : Z :=
  match digits with
  | EmptyString => acc
  | String c t => decimal_value (acc * 10 + (Z.of_N (code c) - 48)) t
  end.

(** [m * 10 ^ e] as a rational. *)
Definition scale10 (m e : Z) : Q :=
  if 0 <=? e then inject_Z (m * 10 ^ e)
  else Qmake m (Z.to_pos (10 ^ (- e))).

(** [float(s)] on an ASCII string: the decimal literal, rounded to
    binary64; [None] stands for [ValueError]. *)
Definition float_of_string (s : string) : option number :=
  let s := c_strip s in
  if negb (underscores_ok "000" s) then None
  else
    let '(negative, r) := skip_sign (remove_underscores s) in
    let word := lower r in
    if String.eqb word "inf" || String.eqb word "infinity" then
      Some (if negative then NegInf else PosInf)
    else if String.eqb word "nan" then Some NaN
    else
      let '(int_part, r1) := span_digits r in
      let '(frac_part, r2) :=
        match r1 with
        | String "." t => span_digits t
        | _ => (EmptyString, r1)
        end in
      if negb (str_truthy int_part) && negb (str_truthy frac_part) then None
      else
        let mantissa := decimal_value 0 (int_part ++ frac_part) in
        let mantissa := if negative then - mantissa else mantissa in
        let finish (e : Z) :=
          Some (round64 (scale10 mantissa
                           (e - Z.of_nat (String.length frac_part)))) in
        match r2 with
        | EmptyString => finish 0
        | String c t =>
            if Ascii.eqb c "e" || Ascii.eqb c "E" then
              let '(eneg, t1) := skip_sign t in
              let '(edigits, t2) := span_digits t1 in
              if negb (str_truthy edigits) || str_truthy t2 then None
              else
                let e := decimal_value 0 edigits in
                finish (if eneg then - e else e)
            else None
        end.

(** [s.split(sep)] for a one-character separator. *)
Fixpoint split (sep : ascii) (s : string) : list string :=
  match s with
  | EmptyString => [EmptyString]
  | String c t =>
      if Ascii.eqb c sep then EmptyString :: split sep t
      else
        match split sep t with
        | w :: ws => String c w :: ws
        | [] => [String c EmptyString]
        end
  end.

End PyParse.

Import PyStr DataUtils PyNum PyParse.

(** ** core/adsb_decoder.py *)

(** A [datetime]: microseconds since the epoch, UTC. *)
Definition time := Z.

(** [delta.total_seconds()] of a difference of two [datetime]s. *)
Definition total_seconds (delta : Z) : number := Fin (Qmake delta 1000000).

Module Decoder.

(** The [Aircraft] dataclass, each attribute holding a value of its declared
    type or [None].  [timestamp] is filled in by [__post_init__] but stays an
    attribute that the code tests for truthiness. *)
Record Aircraft := {
  icao : string;
  callsign : option string;
  latitude : option number;
  longitude : option number;
  altitude : option Z;
  speed : option number;
  heading : option number;
  vertical_rate : option Z;
  squawk : option string;
  timestamp : option time
}.

(** [Aircraft(...)] followed by [__post_init__]: a missing timestamp becomes
    the current time. *)
Definition new_aircraft (now : time) (a : Aircraft) : Aircraft :=
  match timestamp a with
  | Some _ => a
  | None =>
      {| icao := icao a; callsign := callsign a; latitude := latitude a;
         longitude := longitude a; altitude := altitude a; speed := speed a;
         heading := heading a; vertical_rate := vertical_rate a;
         squawk := squawk a; timestamp := Some now |}
  end.

(** [Aircraft.is_valid] *)
Definition is_valid (a : Aircraft) : bool :=
  match latitude a, longitude a with
  | Some lat, Some lon =>
      in_range (of_Z (-90)) lat (of_Z 90)
      && in_range (of_Z (-180)) lon (of_Z 180)
  | _, _ => false
  end.

(** One element of the ["aircraft"] array of a dump1090 document, after
    [json.loads], as dump1090 writes it: each key is absent, here [None], or
    has a value of its type (a string for [hex], [flight] and [squawk], a
    number for the others).  On a key of another type the method can raise
    [AttributeError] or [TypeError], which it does not catch and which ends
    the whole call: so does a [flight] that is [null], at [.strip()], a
    [hex] that is a number, at [.upper()], and a [lat] that is a string, at
    the comparison of [is_valid].  Such documents are not in this type. *)
Record ac_data := {
  hex : option string;
  flight : option string;
  lat : option number;
  lon : option number;
  alt_baro : option Z;
  gs : option number;
  track : option number;
  baro_rate : option Z;
  ac_squawk : option string
}.

(** The loop body of [process_dump1090_json] for one record: the aircraft
    appended to the result and stored in the cache, or nothing. *)
Definition process_record (now : time) (ac : ac_data) : option Aircraft :=
  match hex ac with
  | None => None
  | Some h =>
      if negb (str_truthy h) then None
      else
        let aircraft := new_aircraft now
          {| icao := upper h;
             callsign := Some (strip (default "" (flight ac)));
             latitude := lat ac;
             longitude := lon ac;
             altitude := alt_baro ac;
             speed := gs ac;
             heading := track ac;
             vertical_rate := baro_rate ac;
             squawk := ac_squawk ac;
             timestamp := None |} in
        if is_valid aircraft then Some aircraft else None
  end.

Fixpoint process_records (now : time) (records : list ac_data)
    (aircraft_list : list Aircraft) (cache : gmap string Aircraft)
  : list Aircraft * gmap string Aircraft :=
  match records with
  | [] => (aircraft_list, cache)
  | ac :: rest =>
      match process_record now ac with
      | Some aircraft =>
          process_records now rest (aircraft_list ++ [aircraft])
            (<[icao aircraft := aircraft]> cache)
      | None => process_records now rest aircraft_list cache
      end
  end.

(** [ADSBDecoder.process_dump1090_json].  The argument is the outcome of
    [json.loads(json_data)] followed by [data.get('aircraft', [])]: [None]
    when the text is not JSON, which the method answers with [[]]. *)
Definition process_dump1090_json (json_data : option (list ac_data))
    (now : time) (aircraft_cache : gmap string Aircraft)
  : list Aircraft * gmap string Aircraft :=
  match json_data with
  | None => ([], aircraft_cache)
  | Some records => process_records now records [] aircraft_cache
  end.

(** The test of the first loop of [cleanup_old_aircraft]. *)
Definition is_old (max_age_seconds : number) (current_time : time)
    (aircraft : Aircraft) : bool :=
  match timestamp aircraft with
  | Some ts => num_gt (total_seconds (current_time - ts)) max_age_seconds
  | None => false
  end.

(** [ADSBDecoder.cleanup_old_aircraft]: the keys to remove are collected
    first and deleted afterwards.  The method has no [return] statement: its
    result is [None], here [tt]. *)
Definition cleanup_old_aircraft (max_age_seconds : number)
    (current_time : time) (aircraft_cache : gmap string Aircraft)
  : unit * gmap string Aircraft :=
  let to_remove :=
    (filter (fun kv => is_old max_age_seconds current_time kv.2 = true)
            (map_to_list aircraft_cache)).*1 in
  (tt, foldl (fun cache icao => delete icao cache) aircraft_cache to_remove).

End Decoder.

Import Decoder.

(** ** core/database.py *)

Module Database.

(** A row of [aircraft_positions].  The surrogate key [id] that the engine
    assigns is not represented. *)
Record AircraftPosition := {
  row_icao : string;
  row_callsign : option string;
  row_latitude : option number;
  row_longitude : option number;
  row_altitude : option Z;
  row_speed : option number;
  row_heading : option number;
  row_vertical_rate : option Z;
  row_squawk : option string;
  row_timestamp : time;
  row_created_at : time
}.

(** A row of [statistics]. *)
Record Statistics := {
  date : time;
  total_aircraft : nat;
  total_positions : nat;
  unique_callsigns : nat;
  avg_altitude : option number;
  max_altitude : option Z;
  stat_created_at : time
}.

(** The store, the SQLite file of the default configuration: its two
    tables, and whether a session can reach it.  When it cannot, the first
    statement a session sends (a query, or the flush at commit) raises, and
    [get_session] rolls back. *)
Record database := {
  available : bool;
  aircraft_positions : list AircraftPosition;
  statistics : list Statistics
}.

Definition set_positions (db : database) (rows : list AircraftPosition)
  : database :=
  {| available := available db; aircraft_positions := rows;
     statistics := statistics db |}.

Definition set_statistics (db : database) (rows : list Statistics)
  : database :=
  {| available := available db; aircraft_positions := aircraft_positions db;
     statistics := rows |}.

(** [AircraftPosition(icao=aircraft.icao, ...)] as both store methods
    build it. *)
Definition position_row (now : time) (aircraft : Aircraft) : AircraftPosition :=
  {| row_icao := icao aircraft;
     row_callsign := callsign aircraft;
     row_latitude := latitude aircraft;
     row_longitude := longitude aircraft;
     row_altitude := altitude aircraft;
     row_speed := speed aircraft;
     row_heading := heading aircraft;
     row_vertical_rate := vertical_rate aircraft;
     row_squawk := squawk aircraft;
     row_timestamp := default now (timestamp aircraft);
     row_created_at := now |}.

(** What a [Float] column of the SQLite table keeps of a [float]: NaN is
    stored as NULL. *)
Definition sql_real (x : option number) : option number :=
  match x with
  | Some NaN => None
  | _ => x
  end.

(** An [Integer] column holds a signed integer of 64 bits: a larger [int]
    makes the statement, and so the commit, fail. *)
Definition fits_integer (x : option Z) : bool :=
  match x with
  | Some z => (- 2 ^ 63 <=? z) && (z <? 2 ^ 63)
  | None => true
  end.

(** The row as the table keeps it. *)
Definition stored (pos : AircraftPosition) : AircraftPosition :=
  {| row_icao := row_icao pos;
     row_callsign := row_callsign pos;
     row_latitude := sql_real (row_latitude pos);
     row_longitude := sql_real (row_longitude pos);
     row_altitude := row_altitude pos;
     row_speed := sql_real (row_speed pos);
     row_heading := sql_real (row_heading pos);
     row_vertical_rate := row_vertical_rate pos;
     row_squawk := row_squawk pos;
     row_timestamp := row_timestamp pos;
     row_created_at := row_created_at pos |}.

(** Whether the commit of these new rows succeeds on a reachable store. *)
Definition commit_accepts (positions : list AircraftPosition) : bool :=
  forallb (fun pos => fits_integer (row_altitude pos)
                      && fits_integer (row_vertical_rate pos))
          positions.

(** [DatabaseManager.store_aircraft_positions].  [success_count] is
    assigned inside the [with] block, before the commit: a failed commit
    rolls back, leaves the table as it was and still returns the count. *)
Definition store_aircraft_positions (aircraft_list : list Aircraft)
    (now : time) (db : database) : nat * database :=
  let positions :=
    map (position_row now) (List.filter is_valid aircraft_list) in
  let success_count := length positions in
  if available db && commit_accepts positions then
    (success_count,
     set_positions db (aircraft_positions db ++ map stored positions))
  else (success_count, db).

(** The ISO 8601 text of a [datetime]. *)
Inductive iso8601 :=
| isoformat (t : time).

(** The dictionary [get_aircraft_positions] builds for a row. *)
Record position := {
  p_icao : string;
  p_callsign : option string;
  p_latitude : option number;
  p_longitude : option number;
  p_altitude : option Z;
  p_speed : option number;
  p_heading : option number;
  p_vertical_rate : option Z;
  p_squawk : option string;
  p_timestamp : option iso8601
}.

Definition position_dict (pos : AircraftPosition) : position :=
  {| p_icao := row_icao pos;
     p_callsign := row_callsign pos;
     p_latitude := row_latitude pos;
     p_longitude := row_longitude pos;
     p_altitude := row_altitude pos;
     p_speed := row_speed pos;
     p_heading := row_heading pos;
     p_vertical_rate := row_vertical_rate pos;
     p_squawk := row_squawk pos;
     p_timestamp := Some (isoformat (row_timestamp pos)) |}.

(** [ORDER BY timestamp DESC]: rows with equal timestamps, whose order SQL
    leaves open, keep the order of the table. *)
Fixpoint insert_desc (r : AircraftPosition) (rows : list AircraftPosition)
  : list AircraftPosition :=
  match rows with
  | [] => [r]
  | r' :: rest =>
      if row_timestamp r' <=? row_timestamp r then r :: rows
      else r' :: insert_desc r rest
  end.

Fixpoint order_by_timestamp_desc (rows : list AircraftPosition)
  : list AircraftPosition :=
  match rows with
  | [] => []
  | r :: rest => insert_desc r (order_by_timestamp_desc rest)
  end.

(** The three optional filters of [get_aircraft_positions]; [if icao:]
    lets the empty string through as no filter. *)
Definition matches (icao : option string) (start_time end_time : option time)
    (pos : AircraftPosition) : bool :=
  match icao with
  | Some i => if str_truthy i then String.eqb (row_icao pos) i else true
  | None => true
  end
  && match start_time with
     | Some t => t <=? row_timestamp pos
     | None => true
     end
  && match end_time with
     | Some t => row_timestamp pos <=? t
     | None => true
     end.

(** [DatabaseManager.get_aircraft_positions]; any exception gives [[]]. *)
Definition get_aircraft_positions (icao : option string)
    (start_time end_time : option time) (limit : nat) (db : database)
  : list position :=
  if available db then
    let query := List.filter (matches icao start_time end_time)
                             (aircraft_positions db) in
    let positions := take limit (order_by_timestamp_desc query) in
    map position_dict positions
  else [].

(** The default value of [limit]. *)
Definition default_limit : nat := Z.to_nat 1000.

Definition day : Z := 86400 * 1000000.

(** Midnight UTC of the day [now] falls on. *)
Definition start_of_day (now : time) : time := now / day * day.

Definition in_window (start_ end_ t : time) : bool :=
  (start_ <=? t) && (t <? end_).

Definition callsign_truthy (c : option string) : bool :=
  match c with Some s => str_truthy s | None => false end.

Definition altitude_truthy (a : option Z) : bool :=
  match a with Some z => negb (z =? 0) | None => false end.

(** [max(altitudes)] of a non-empty list. *)
Definition max_list (first : Z) (others : list Z) : Z :=
  foldl Z.max first others.

(** The row [update_statistics] computes from the positions of the day. *)
Definition compute_statistics (now start_ : time)
    (positions_today : list AircraftPosition) : Statistics :=
  let unique_aircraft : gset string :=
    list_to_set (map row_icao positions_today) in
  let unique_callsigns : gset string :=
    list_to_set
      (omap row_callsign
         (List.filter (fun pos => callsign_truthy (row_callsign pos))
                      positions_today)) in
  let altitudes :=
    omap row_altitude
      (List.filter (fun pos => altitude_truthy (row_altitude pos))
                   positions_today) in
  {| date := start_;
     total_aircraft := size unique_aircraft;
     total_positions := length positions_today;
     unique_callsigns := size unique_callsigns;
     avg_altitude :=
       match altitudes with
       | [] => None
       | _ => Some (true_divide (foldl Z.add 0 altitudes)
                                (Pos.of_nat (length altitudes)))
       end;
     max_altitude :=
       match altitudes with
       | [] => None
       | a :: rest => Some (max_list a rest)
       end;
     stat_created_at := now |}.

(** [DatabaseManager.update_statistics]: nothing is written when the day
    has no position; otherwise the rows of the day are deleted and the new
    one is added. *)
Definition update_statistics (now : time) (db : database) : bool * database :=
  let start_ := start_of_day now in
  let end_ := start_ + day in
  if available db then
    let positions_today :=
      List.filter (fun pos => in_window start_ end_ (row_timestamp pos))
                  (aircraft_positions db) in
    match positions_today with
    | [] => (true, db)
    | _ =>
        let stats := compute_statistics now start_ positions_today in
        let kept :=
          List.filter (fun s => negb (in_window start_ end_ (date s)))
                      (statistics db) in
        (true, set_statistics db (kept ++ [stats]))
    end
  else (false, db).

End Database.

Import Database.

(** ** core/foilskybugs.py *)

Module App.

(** The collection thread, as far as [start] and [stop] look at it. *)
Record thread := { is_alive : bool }.

Record FoilSkyBugs := {
  running : bool;
  data_thread : option thread;
  decoder : gmap string Aircraft;
  database_ : database
}.

Definition set_lifecycle (self : FoilSkyBugs) (r : bool) (t : option thread)
  : FoilSkyBugs :=
  {| running := r; data_thread := t; decoder := decoder self;
     database_ := database_ self |}.

(** [FoilSkyBugs.start] *)
Definition start (self : FoilSkyBugs) : bool * FoilSkyBugs :=
  if running self then (false, self)
  else (true, set_lifecycle self true (Some {| is_alive := true |})).

(** [FoilSkyBugs.stop].  [exits_in_time] tells whether the thread ends
    within the five seconds [join] waits for it. *)
Definition stop (exits_in_time : bool) (self : FoilSkyBugs)
  : bool * FoilSkyBugs :=
  if negb (running self) then (false, self)
  else
    let thread_after :=
      match data_thread self with
      | Some t =>
          if is_alive t then Some {| is_alive := negb exits_in_time |}
          else Some t
      | None => None
      end in
    (true, set_lifecycle self false thread_after).

(** The name of the file an exporter writes. *)
Inductive file_name :=
| Given (path : string)
| Generated (seconds : Z) (extension : string).

Definition choose_name (output_file : option string) (now : time)
    (extension : string) : file_name :=
  match output_file with
  | Some path =>
      if str_truthy path then Given path
      else Generated (now / 1000000) extension
  | None => Generated (now / 1000000) extension
  end.

(** The properties of a GeoJSON feature: seven of the keys of a position. *)
Record feature_properties := {
  f_icao : string;
  f_callsign : option string;
  f_altitude : option Z;
  f_speed : option number;
  f_heading : option number;
  f_squawk : option string;
  f_timestamp : option iso8601
}.

(** A GeoJSON point feature. *)
Record feature := {
  coordinates : number * number;
  properties : feature_properties
}.

Definition properties_of (p : position) : feature_properties :=
  {| f_icao := p_icao p;
     f_callsign := p_callsign p;
     f_altitude := p_altitude p;
     f_speed := p_speed p;
     f_heading := p_heading p;
     f_squawk := p_squawk p;
     f_timestamp := p_timestamp p |}.

(** What the exporters put in the file. *)
Inductive document :=
| JsonDocument (export_time : iso8601) (total : nat)
               (positions : list position)
| CsvDocument (rows : list position)
| GeoJsonDocument (features : list feature).

Definition written_file : Type := file_name * document.

Definition option_truthy (x : option number) : bool :=
  match x with Some v => num_truthy v | None => false end.

(** [_export_json]; [writable] tells whether the file can be written. *)
Definition _export_json (writable : bool) (now : time)
    (positions : list position) (output_file : option string)
  : bool * option written_file :=
  if writable then
    (true, Some (choose_name output_file now "json",
                 JsonDocument (isoformat now) (length positions) positions))
  else (false, None).

(** [_export_csv] *)
Definition _export_csv (writable : bool) (now : time)
    (positions : list position) (output_file : option string)
  : bool * option written_file :=
  match positions with
  | [] => (false, None)
  | _ =>
      if writable then
        (true, Some (choose_name output_file now "csv", CsvDocument positions))
      else (false, None)
  end.

(** The feature of one position, when both coordinates are truthy. *)
Definition feature_of (p : position) : option feature :=
  match p_latitude p, p_longitude p with
  | Some la, Some lo =>
      if num_truthy la && num_truthy lo then
        Some {| coordinates := (lo, la); properties := properties_of p |}
      else None
  | _, _ => None
  end.

(** [_export_geojson] *)
Definition _export_geojson (writable : bool) (now : time)
    (positions : list position) (output_file : option string)
  : bool * option written_file :=
  let features := omap feature_of positions in
  if writable then
    (true, Some (choose_name output_file now "geojson",
                 GeoJsonDocument features))
  else (false, None).

(** The condition of the list comprehension that applies the bounds. *)
Definition inside (south west north east : number) (pos : position) : bool :=
  match p_latitude pos, p_longitude pos with
  | Some la, Some lo =>
      num_truthy la && num_truthy lo
      && in_range south la north && in_range west lo east
  | _, _ => false
  end.

(** The outcome of the block guarded by [if bounds:]: the positions to
    export, or [None] when [float] raised [ValueError]. *)
Definition apply_bounds (bounds : option string) (positions : list position)
  : option (list position) :=
  match bounds with
  | None => Some positions
  | Some b =>
      if negb (str_truthy b) then Some positions
      else
        match split "," b with
        | [s; w; n; e] =>
            match float_of_string s, float_of_string w,
                  float_of_string n, float_of_string e with
            | Some south, Some west, Some north, Some east =>
                Some (List.filter (inside south west north east) positions)
            | _, _, _, _ => None
            end
        | _ => Some positions
        end
  end.

(** [FoilSkyBugs.export_data]: the value returned and the file written. *)
Definition export_data (format : string) (start_time end_time : option time)
    (output_file : option string) (bounds : option string)
    (writable : bool) (now : time) (self : FoilSkyBugs)
  : bool * option written_file :=
  let positions :=
    get_aircraft_positions None start_time end_time (Z.to_nat 10000)
                           (database_ self) in
  match positions with
  | [] => (false, None)
  | _ =>
      match apply_bounds bounds positions with
      | None => (false, None)
      | Some positions =>
          let fmt := lower format in
          if String.eqb fmt "json" then
            _export_json writable now positions output_file
          else if String.eqb fmt "csv" then
            _export_csv writable now positions output_file
          else if String.eqb fmt "geojson" then
            _export_geojson writable now positions output_file
          else (false, None)
      end
  end.

End App.

Import App.

(** ** utils/data_utils.py, the other functions *)

Module DataUtilsRest.

(** The characters [re.sub(r'[^A-Z0-9-]', '', callsign)] keeps. *)
Definition callsign_char (c : ascii) : bool :=
  between 65 90 c || between 48 57 c || Ascii.eqb c "-".

Fixpoint keep_chars (p : ascii -> bool) (s : string) : string :=
  match s with
  | EmptyString => EmptyString
  | String c t => if p c then String c (keep_chars p t) else keep_chars p t
  end.

(** [clean_callsign(callsign)] *)
Definition clean_callsign (callsign : option string) : option string :=
  match callsign with
  | None => None
  | Some callsign =>
      if negb (str_truthy callsign) then None
      else
        let callsign := upper (strip callsign) in
        if negb (str_truthy callsign) then None
        else
          let callsign := keep_chars callsign_char callsign in
          if (String.length callsign <? 2)%nat
             || (8 <? String.length callsign)%nat
          then None
          else Some callsign
  end.

Definition is_octal_digit (c : ascii) : bool := between 48 55 c.

(** [validate_squawk(squawk)] *)
Definition validate_squawk (squawk : option string) : bool :=
  match squawk with
  | None => false
  | Some squawk =>
      if negb (str_truthy squawk) then false
      else
        let squawk := strip squawk in
        if negb (String.length squawk =? 4)%nat then false
        else all_chars is_octal_digit squawk
  end.

(** What a call that may raise [ValueError] gives. *)
Inductive outcome (A : Type) :=
| Returns (value : A)
| Raises.

Arguments Returns {A} value.
Arguments Raises {A}.

(** [s[:2]] *)
Definition first_two (s : string) : string :=
  match s with
  | String a (String b _) => String a (String b EmptyString)
  | _ => s
  end.

(** The label [parse_aircraft_type] gives to the first byte. *)
Definition registration (first_byte : Z) : string :=
  if (160 <=? first_byte) && (first_byte <=? 167) then "US Registered"
  else if (64 <=? first_byte) && (first_byte <=? 71) then "UK Registered"
  else if (56 <=? first_byte) && (first_byte <=? 63) then "German Registered"
  else if (72 <=? first_byte) && (first_byte <=? 79)
       then "Netherlands Registered"
  else "Unknown".

(** [parse_aircraft_type(icao)].  The first byte is read from the argument
    as it was passed, not from its trimmed form, and the [ValueError] of
    [int] is not caught. *)
Definition parse_aircraft_type (icao : string) : outcome (option string) :=
  if negb (validate_icao (Some icao)) then Returns None
  else
    match int_base16 (first_two icao) with
    | None => Raises
    | Some first_byte => Returns (Some (registration first_byte))
    end.

End DataUtilsRest.

(** ** utils/geo_utils.py *)

Module GeoUtils.

(** [validate_coordinates(latitude, longitude)] *)
Definition validate_coordinates (latitude longitude : option number) : bool :=
  match latitude, longitude with
  | Some la, Some lo =>
      in_range (of_Z (-90)) la (of_Z 90)
      && in_range (of_Z (-180)) lo (of_Z 180)
  | _, _ => false
  end.

(** [within_bounds(latitude, longitude, north, south, east, west)] *)
Definition within_bounds (latitude longitude : option number)
    (north south east west : number) : bool :=
  if negb (validate_coordinates latitude longitude) then false
  else
    match latitude, longitude with
    | Some la, Some lo => in_range south la north && in_range west lo east
    | _, _ => false
    end.

End GeoUtils.

(** ** core/adsb_decoder.py, the other methods *)

Module DecoderRest.

(** [Aircraft.to_dict]: the fields, the timestamp in ISO form when there
    is one. *)
Definition to_dict (a : Aircraft) : position :=
  {| p_icao := icao a;
     p_callsign := callsign a;
     p_latitude := latitude a;
     p_longitude := longitude a;
     p_altitude := altitude a;
     p_speed := speed a;
     p_heading := heading a;
     p_vertical_rate := vertical_rate a;
     p_squawk := squawk a;
     p_timestamp :=
       match timestamp a with
       | Some t => Some (isoformat t)
       | None => None
       end |}.

(** [ADSBDecoder.get_aircraft_by_icao] *)
Definition get_aircraft_by_icao (icao : string)
    (aircraft_cache : gmap string Aircraft) : option Aircraft :=
  aircraft_cache !! icao.

End DecoderRest.

(** ** core/database.py, the other methods *)

Module DatabaseRest.

(** The two retention periods of [DatabaseConfig] that [cleanup_old_data]
    reads, in days. *)
Record DatabaseConfig := {
  retention_positions : Z;
  retention_statistics : Z
}.

(** The defaults of the dataclass. *)
Definition default_config : DatabaseConfig :=
  {| retention_positions := 30; retention_statistics := 365 |}.


(** The first and the last [datetime]: 0001-01-01 00:00:00 and 9999-12-31
    23:59:59.999999. *)
Definition min_time : time := - 719162 * day.
Definition max_time : time := 2932897 * day - 1.

(** [t - timedelta(days=n)]; [None] stands for [OverflowError], raised
    when the period has more than 999999999 days or the result is not a
    [datetime]. *)
Definition minus_days (t : time) (n : Z) : option time :=
  if (Z.abs n <=? 999999999)
     && (min_time <=? t - n * day) && (t - n * day <=? max_time)
  then Some (t - n * day)
  else None.

(** [DatabaseManager.cleanup_old_data]: rows strictly older than the
    cut-off are deleted.  The two cut-offs are computed first, inside the
    [try]. *)
Definition cleanup_old_data (config : DatabaseConfig) (current_time : time)
    (db : database) : bool * database :=
  match minus_days current_time (retention_positions config),
        minus_days current_time (retention_statistics config) with
  | Some positions_cutoff, Some stats_cutoff =>
      if available db then
        (true,
         {| available := available db;
            aircraft_positions :=
              List.filter
                (fun pos => negb (row_timestamp pos <? positions_cutoff))
                (aircraft_positions db);
            statistics :=
              List.filter (fun s => negb (date s <? stats_cutoff))
                          (statistics db) |})
      else (false, db)
  | _, _ => (false, db)
  end.

(** The dictionary [get_statistics] builds for a row. *)
Record statistics_dict := {
  d_date : option iso8601;
  d_total_aircraft : nat;
  d_total_positions : nat;
  d_unique_callsigns : nat;
  d_avg_altitude : option number;
  d_max_altitude : option Z
}.

Definition statistics_row_dict (stat : Statistics) : statistics_dict :=
  {| d_date := Some (isoformat (date stat));
     d_total_aircraft := total_aircraft stat;
     d_total_positions := total_positions stat;
     d_unique_callsigns := unique_callsigns stat;
     d_avg_altitude := avg_altitude stat;
     d_max_altitude := max_altitude stat |}.

(** [ORDER BY date DESC] on [statistics], ties in the order of the table. *)
Fixpoint insert_stat_desc (s : Statistics) (rows : list Statistics)
  : list Statistics :=
  match rows with
  | [] => [s]
  | s' :: rest =>
      if date s' <=? date s then s :: rows
      else s' :: insert_stat_desc s rest
  end.

Fixpoint order_by_date_desc (rows : list Statistics) : list Statistics :=
  match rows with
  | [] => []
  | s :: rest => insert_stat_desc s (order_by_date_desc rest)
  end.

(** [DatabaseManager.get_statistics]; the cut-off is computed inside the
    [try], and any exception gives [[]]. *)
Definition get_statistics (days : Z) (now : time) (db : database)
  : list statistics_dict :=
  match minus_days now days with
  | Some cutoff_date =>
      if available db then
        map statistics_row_dict
            (order_by_date_desc
               (List.filter (fun s => cutoff_date <=? date s)
                            (statistics db)))
      else []
  | None => []
  end.

(** [DatabaseManager.health_check] *)
Definition health_check (db : database) : bool := available db.

End DatabaseRest.

(** ** core/foilskybugs.py, the other methods *)

Module AppRest.
Import DecoderRest DatabaseRest.

(** [FoilSkyBugs.get_aircraft_by_icao]: the decoder first, then the newest
    stored position. *)
Definition get_aircraft_by_icao (icao : string) (self : FoilSkyBugs)
  : option position :=
  match DecoderRest.get_aircraft_by_icao icao (decoder self) with
  | Some aircraft => Some (to_dict aircraft)
  | None =>
      match get_aircraft_positions (Some icao) None None 1 (database_ self)
      with
      | p :: _ => Some p
      | [] => None
      end
  end.

Definition hour : Z := 3600 * 1000000.

(** [FoilSkyBugs.get_aircraft_history] *)
Definition get_aircraft_history (icao : string) (hours : Z) (now : time)
    (self : FoilSkyBugs) : list position :=
  let end_time := now in
  let start_time := end_time - hours * hour in
  get_aircraft_positions (Some icao) (Some start_time) (Some end_time)
                         (Z.to_nat 1000) (database_ self).

(** [FoilSkyBugs.get_flights] *)
Definition get_flights (start_time end_time : time) (self : FoilSkyBugs)
  : list position :=
  get_aircraft_positions None (Some start_time) (Some end_time)
                         (Z.to_nat 5000) (database_ self).

(** [FoilSkyBugs.get_statistics] *)
Definition get_statistics (days : Z) (now : time) (self : FoilSkyBugs)
  : list statistics_dict :=
  DatabaseRest.get_statistics days now (database_ self).

(** The entries of [health['components']], in the order they are set. *)
Record health := {
  status : string;
  health_timestamp : iso8601;
  database_status : string;
  database_message : string;
  data_collection_status : string;
  thread_alive : bool;
  decoder_status : string;
  decoder_aircraft : option nat;
  issues : option (list string)
}.

(** [FoilSkyBugs.health_check].  [current_aircraft] is what
    [decoder.get_current_aircraft()] answers: the number of aircraft, or
    [None] when it raises. *)
Definition health_check (current_aircraft : option nat) (now : time)
    (self : FoilSkyBugs) : health :=
  let db_healthy := DatabaseRest.health_check (database_ self) in
  let database_status := if db_healthy then "healthy" else "unhealthy" in
  let data_collection_status :=
    if running self then "running" else "stopped" in
  let decoder_status :=
    match current_aircraft with Some _ => "healthy" | None => "unhealthy" end in
  let bad (st : string) := String.eqb st "unhealthy" || String.eqb st "stopped" in
  let unhealthy_components :=
    ((if bad database_status then ["database"] else [])
     ++ (if bad data_collection_status then ["data_collection"] else [])
     ++ (if bad decoder_status then ["decoder"] else []))%list in
  {| status :=
       match unhealthy_components with [] => "healthy" | _ => "degraded" end;
     health_timestamp := isoformat now;
     database_status := database_status;
     database_message :=
       if db_healthy then "Connection OK" else "Connection failed";
     data_collection_status := data_collection_status;
     thread_alive :=
       match data_thread self with Some t => is_alive t | None => false end;
     decoder_status := decoder_status;
     decoder_aircraft := current_aircraft;
     issues :=
       match unhealthy_components with
       | [] => None
       | _ => Some unhealthy_components
       end |}.

(** [export_data] again, the builtin [float] being an argument: what
    follows of it holds whatever [float] returns or raises on the four
    fields of the bounds. *)
Definition apply_bounds_with (float : string -> option number)
    (bounds : option string) (positions : list position)
  : option (list position) :=
  match bounds with
  | None => Some positions
  | Some b =>
      if negb (str_truthy b) then Some positions
      else
        match split "," b with
        | [s; w; n; e] =>
            match float s, float w, float n, float e with
            | Some south, Some west, Some north, Some east =>
                Some (List.filter (inside south west north east) positions)
            | _, _, _, _ => None
            end
        | _ => Some positions
        end
  end.

Definition export_data_with (float : string -> option number)
    (format : string) (start_time end_time : option time)
    (output_file : option string) (bounds : option string)
    (writable : bool) (now : time) (self : FoilSkyBugs)
  : bool * option written_file :=
  let positions :=
    get_aircraft_positions None start_time end_time (Z.to_nat 10000)
                           (database_ self) in
  match positions with
  | [] => (false, None)
  | _ =>
      match apply_bounds_with float bounds positions with
      | None => (false, None)
      | Some positions =>
          let fmt := lower format in
          if String.eqb fmt "json" then
            _export_json writable now positions output_file
          else if String.eqb fmt "csv" then
            _export_csv writable now positions output_file
          else if String.eqb fmt "geojson" then
            _export_geojson writable now positions output_file
          else (false, None)
      end
  end.

End AppRest.

Import DataUtilsRest GeoUtils DecoderRest DatabaseRest AppRest.

(** ** The vocabulary of the properties *)

(** A string that [strip] leaves alone. *)
Definition trimmed (s : string) : Prop := lstrip s = s /\ rstrip s = s.

(** A character of the ASCII range: [str.isascii] holds of the strings made
    of such characters. *)
Definition is_ascii (c : ascii) : bool := (nat_of_ascii c <? 128)%nat.

(** The characters that can occur in an ASCII string [int(s, 16)] accepts. *)
Definition literal_char (c : ascii) : bool :=
  is_hex_digit c || Ascii.eqb c "+" || Ascii.eqb c "-" || Ascii.eqb c "_"
  || Ascii.eqb c "x" || Ascii.eqb c "X".


(** The position rows of the UTC day of [now]. *)
Definition positions_of_day (now : time) (db : database)
  : list AircraftPosition :=
  List.filter
    (fun pos => in_window (start_of_day now) (start_of_day now + day)
                          (row_timestamp pos))
    (aircraft_positions db).

(** The rows of [statistics] dated within the UTC day of [now]. *)
Definition statistics_of_day (now : time) (db : database) : list Statistics :=
  List.filter
    (fun s => in_window (start_of_day now) (start_of_day now + day) (date s))
    (statistics db).

(** The aggregate columns of a row of [statistics]. *)
Definition aggregates (s : Statistics) :=
  (date s, total_aircraft s, total_positions s, unique_callsigns s,
   avg_altitude s, max_altitude s).

(** [is_valid] read on a stored row. *)
Definition valid_row (r : AircraftPosition) : bool :=
  match row_latitude r, row_longitude r with
  | Some la, Some lo =>
      in_range (of_Z (-90)) la (of_Z 90)
      && in_range (of_Z (-180)) lo (of_Z 180)
  | _, _ => false
  end.

(** The order of the query result: newest first. *)
Definition newer_or_equal (r1 r2 : AircraftPosition) : Prop :=
  row_timestamp r2 <= row_timestamp r1.


(** ** Sample data *)

(** A dump1090 record with latitude 95 and a valid longitude. *)
Definition report_lat_95 : ac_data :=
  {| hex := Some "abc123"; flight := Some "UAL123  ";
     lat := Some (of_Z 95); lon := Some (of_Z (-75));
     alt_baro := Some 35000; gs := Some (of_Z 450);
     track := Some (of_Z 270); baro_rate := None;
     ac_squawk := Some "1234" |}.

(** A dump1090 record with a valid position. *)
Definition report_valid : ac_data :=
  {| hex := Some "def456"; flight := None;
     lat := Some (of_Z 43); lon := Some (of_Z (-76));
     alt_baro := Some 28000; gs := None; track := None; baro_rate := None;
     ac_squawk := None |}.

(** An aircraft with a valid position, last seen at [t]. *)
Definition seen_at (t : time) : Aircraft :=
  {| icao := "ABC123"; callsign := Some "UAL123";
     latitude := Some (of_Z 42); longitude := Some (of_Z (-75));
     altitude := Some 35000; speed := None; heading := None;
     vertical_rate := None; squawk := None; timestamp := Some t |}.




(** A row for an aircraft at the given whole-degree position and time. *)
Definition row_at (la lo : Z) (t : time) : AircraftPosition :=
  {| row_icao := "ABC123"; row_callsign := Some "UAL123";
     row_latitude := Some (of_Z la); row_longitude := Some (of_Z lo);
     row_altitude := Some 35000; row_speed := Some (of_Z 450);
     row_heading := Some (of_Z 270); row_vertical_rate := None;
     row_squawk := Some "1234"; row_timestamp := t; row_created_at := t |}.

(** A row with the given altitude, at time 5. *)
Definition with_row_altitude (z : Z) : AircraftPosition :=
  {| row_icao := "ABC123"; row_callsign := None;
     row_latitude := Some (of_Z 42); row_longitude := Some (of_Z (-75));
     row_altitude := Some z; row_speed := None; row_heading := None;
     row_vertical_rate := None; row_squawk := None; row_timestamp := 5;
     row_created_at := 5 |}.

(** A row of statistics for the day that starts at [t]. *)
Definition statistics_at (t : time) : Statistics :=
  {| date := t; total_aircraft := 1; total_positions := 2;
     unique_callsigns := 1; avg_altitude := Some (of_Z 35000);
     max_altitude := Some 35000; stat_created_at := t |}.

(** A reachable store holding the given positions and no statistics. *)
Definition store_of (rows : list AircraftPosition) : database :=
  {| available := true; aircraft_positions := rows; statistics := [] |}.

(** The same store, out of reach. *)
Definition unreachable (db : database) : database :=
  {| available := false; aircraft_positions := aircraft_positions db;
     statistics := statistics db |}.

(** A stopped application on the given store. *)
Definition app_on (db : database) : FoilSkyBugs :=
  {| running := false; data_thread := None; decoder := ∅; database_ := db |}.


(** ** The vocabulary of the further properties *)

(** The value of a hexadecimal digit. *)
Definition hex_value (c : ascii) : Z := default 0 (digit_value c).

(** The aircraft [process_dump1090_json] accepts, in the order of the
    document. *)
Definition accepted (now : time) (records : list ac_data) : list Aircraft :=
  omap (process_record now) records.

(** Every entry of a written document is a position of which [P] holds,
    or, in a GeoJSON document, the feature of such a position. *)
Definition all_entries (P : position -> Prop) (d : document) : Prop :=
  match d with
  | JsonDocument _ _ positions => forall p, In p positions -> P p
  | CsvDocument rows => forall p, In p rows -> P p
  | GeoJsonDocument features =>
      forall f, In f features -> exists p, feature_of p = Some f /\ P p
  end.

(** The position has both coordinates, within the given box. *)
Definition in_box (south west north east : number) (p : position) : Prop :=
  exists la lo,
    p_latitude p = Some la /\ p_longitude p = Some lo
    /\ in_range south la north = true /\ in_range west lo east = true.

(** The order of [get_statistics]: newest date first. *)
Definition later_or_equal (s1 s2 : Statistics) : Prop := date s2 <= date s1.

(** * Properties *)

(** ** The repository's tests of [normalize_icao], and a few more inputs *)

Example normalize_ABC123 : normalize_icao "ABC123" = "ABC123".
Proof. reflexivity. Qed.

Example normalize_ABC12 : normalize_icao "ABC12" = "0ABC12".
Proof. reflexivity. Qed.

Example normalize_A1 : normalize_icao "A1" = "0000A1".
Proof. reflexivity. Qed.

Example normalize_spaces : normalize_icao "  abc123  " = "ABC123".
Proof. reflexivity. Qed.

Example normalize_INVALID : normalize_icao "INVALID" = "".
Proof. reflexivity. Qed.

Example normalize_empty : normalize_icao "" = "".
Proof. reflexivity. Qed.

Example normalize_blank : normalize_icao "   " = "000000".
Proof. reflexivity. Qed.

Example normalize_prefix : normalize_icao "0x1234" = "0X1234".
Proof. reflexivity. Qed.

Example normalize_sign : normalize_icao "+12345" = "+12345".
Proof. reflexivity. Qed.

(** ** [float] and [split] on a few inputs *)

Example float_40 : float_of_string "40" = Some (Fin 40).
Proof. reflexivity. Qed.

Example float_minus_80 : float_of_string "-80" = Some (Fin (-80)).
Proof. reflexivity. Qed.

Example float_fraction : float_of_string " 42.5 " = Some (Fin (85 # 2)).
Proof. reflexivity. Qed.

Example float_exponent :
  float_of_string "1_0.5e-1"
  = Some (Fin (4728779608739021 # 4503599627370496)).
Proof. reflexivity. Qed.

Example float_trailing_dot : float_of_string "1." = Some (Fin 1).
Proof. reflexivity. Qed.

Example float_infinity : float_of_string "-Infinity" = Some NegInf.
Proof. reflexivity. Qed.

Example float_word : float_of_string "north" = None.
Proof. reflexivity. Qed.

Example float_underscore : float_of_string "1_" = None.
Proof. reflexivity. Qed.

Example float_dot : float_of_string "." = None.
Proof. reflexivity. Qed.

Example split_bounds : split "," "40,-80,45,-70" = ["40"; "-80"; "45"; "-70"].
Proof. reflexivity. Qed.

Example split_empty_fields : split "," "a,,b," = ["a"; ""; "b"; ""].
Proof. reflexivity. Qed.

(** ** Characters and strings *)

Ltac each_char c :=
  destruct c as [[|] [|] [|] [|] [|] [|] [|] [|]];
  try reflexivity; try discriminate.

Lemma isspace_upper_char c : isspace (upper_char c) = isspace c.
Proof. each_char c. Qed.

Lemma upper_char_idem c : upper_char (upper_char c) = upper_char c.
Proof. each_char c. Qed.

Lemma hex_digit_upper c :
  is_hex_digit c = true -> is_upper_hex_digit (upper_char c) = true.
Proof. each_char c. Qed.

Lemma upper_hex_not_space c : is_upper_hex_digit c = true -> isspace c = false.
Proof. each_char c. Qed.

Lemma upper_hex_fixed c : is_upper_hex_digit c = true -> upper_char c = c.
Proof. each_char c. Qed.

Lemma upper_hex_scanned c :
  is_upper_hex_digit c = true ->
  Ascii.eqb c "_" = false /\
  exists d, digit_value c = Some d /\ (d <? 16) = true.
Proof.
  each_char c; intros _; (split; [reflexivity | eexists; split; reflexivity]).
Qed.

Lemma length_upper s : String.length (upper s) = String.length s.
Proof. induction s as [|c t IH]; simpl; congruence. Qed.

Lemma upper_idem s : upper (upper s) = upper s.
Proof.
  induction s as [|c t IH]; simpl; [reflexivity|].
  now rewrite upper_char_idem, IH.
Qed.

Lemma lstrip_upper s : lstrip (upper s) = upper (lstrip s).
Proof.
  induction s as [|c t IH]; simpl; [reflexivity|].
  rewrite isspace_upper_char. now destruct (isspace c).
Qed.

Lemma rstrip_upper s : rstrip (upper s) = upper (rstrip s).
Proof.
  induction s as [|c t IH]; simpl; [reflexivity|].
  rewrite IH, isspace_upper_char.
  destruct (rstrip t); simpl; [now destruct (isspace c) | reflexivity].
Qed.

Lemma strip_upper s : strip (upper s) = upper (strip s).
Proof. unfold strip. now rewrite lstrip_upper, rstrip_upper. Qed.

Lemma rstrip_cons c t :
  isspace c = false -> rstrip (String c t) = String c (rstrip t).
Proof. intros H. simpl. rewrite H. now destruct (rstrip t). Qed.

Lemma rstrip_idem s : rstrip (rstrip s) = rstrip s.
Proof.
  induction s as [|c t IH]; simpl; [reflexivity|].
  destruct (rstrip t) as [|c' r] eqn:E.
  - destruct (isspace c) eqn:Hc; simpl; [reflexivity | now rewrite Hc].
  - change (rstrip (String c (String c' r))) with
      (match rstrip (String c' r) with
       | EmptyString =>
           if isspace c then EmptyString else String c EmptyString
       | r0 => String c r0
       end).
    now rewrite IH.
Qed.

Lemma lstrip_trimmed_front s : lstrip (lstrip s) = lstrip s.
Proof.
  induction s as [|c t IH]; simpl; [reflexivity|].
  destruct (isspace c) eqn:Hc; [exact IH | simpl; now rewrite Hc].
Qed.

Lemma lstrip_rstrip_fixed s : lstrip s = s -> lstrip (rstrip s) = rstrip s.
Proof.
  destruct s as [|c t]; [reflexivity|].
  intros H. destruct (isspace c) eqn:Hc.
  - exfalso. simpl in H. rewrite Hc in H.
    assert (Hlen : forall u, (String.length (lstrip u) <= String.length u)%nat).
    { induction u as [|a u IHu]; simpl; [lia|].
      destruct (isspace a); simpl; lia. }
    specialize (Hlen t). rewrite H in Hlen. simpl in Hlen. lia.
  - rewrite rstrip_cons by assumption. simpl. now rewrite Hc.
Qed.

Lemma strip_trimmed s : trimmed (strip s).
Proof.
  unfold trimmed, strip. split.
  - apply lstrip_rstrip_fixed, lstrip_trimmed_front.
  - apply rstrip_idem.
Qed.

Lemma trimmed_strip s : trimmed s -> strip s = s.
Proof. intros [Hl Hr]. unfold strip. now rewrite Hl. Qed.

Lemma strip_idem s : strip (strip s) = strip s.
Proof. apply trimmed_strip, strip_trimmed. Qed.

Lemma c_isspace_isspace c : c_isspace c = true -> isspace c = true.
Proof. each_char c. Qed.

Lemma c_rstrip_fixed s : rstrip s = s -> c_rstrip s = s.
Proof.
  induction s as [|c t IH]; [reflexivity|]. simpl.
  destruct (rstrip t) as [|c' r] eqn:E.
  - destruct (isspace c) eqn:Hc; [discriminate|].
    intros [= <-]. simpl.
    destruct (c_isspace c) eqn:Hc'; [|reflexivity].
    apply c_isspace_isspace in Hc'. congruence.
  - intros [= <-]. now rewrite IH.
Qed.

Lemma trimmed_c_strip s : trimmed s -> c_strip s = s.
Proof.
  intros [Hl Hr]. unfold c_strip.
  assert (E : c_lstrip s = s).
  { destruct s as [|c t]; [reflexivity|]. simpl in *.
    destruct (c_isspace c) eqn:Hc; [|reflexivity].
    apply c_isspace_isspace in Hc. rewrite Hc in Hl.
    exfalso.
    assert (Hlen : forall u, (String.length (lstrip u) <= String.length u)%nat).
    { induction u as [|a u IHu]; simpl; [lia|].
      destruct (isspace a); simpl; lia. }
    specialize (Hlen t). rewrite Hl in Hlen. simpl in Hlen. lia. }
  rewrite E. now apply c_rstrip_fixed.
Qed.

Lemma trimmed_upper s : trimmed s -> trimmed (upper s).
Proof.
  intros [Hl Hr]. split.
  - now rewrite lstrip_upper, Hl.
  - now rewrite rstrip_upper, Hr.
Qed.

Lemma trimmed_zeros n s :
  trimmed s -> trimmed (replicate_char n "0" ++ s).
Proof.
  intros [Hl Hr]. induction n as [|n [IHl IHr]]; [now split|].
  split; [reflexivity|].
  change (replicate_char (S n) "0" ++ s)
    with (String "0" (replicate_char n "0" ++ s)).
  rewrite rstrip_cons by reflexivity. now rewrite IHr.
Qed.

Lemma length_zeros n s :
  String.length (replicate_char n "0" ++ s) = (n + String.length s)%nat.
Proof. induction n as [|n IH]; simpl; [reflexivity | now rewrite IH]. Qed.

Lemma all_chars_app p a b :
  all_chars p (a ++ b) = all_chars p a && all_chars p b.
Proof.
  induction a as [|c t IH]; simpl; [reflexivity|].
  rewrite IH. now rewrite andb_assoc.
Qed.

Lemma all_chars_zeros n : all_chars is_upper_hex_digit (replicate_char n "0") = true.
Proof. induction n as [|n IH]; simpl; [reflexivity | exact IH]. Qed.

Lemma all_hex_upper s :
  all_chars is_hex_digit s = true ->
  all_chars is_upper_hex_digit (upper s) = true.
Proof.
  induction s as [|c t IH]; simpl; [reflexivity|].
  intros [Hc Ht]%andb_prop. now rewrite hex_digit_upper, IH.
Qed.

Lemma upper_hex_upper s :
  all_chars is_upper_hex_digit s = true -> upper s = s.
Proof.
  induction s as [|c t IH]; simpl; [reflexivity|].
  intros [Hc Ht]%andb_prop. now rewrite upper_hex_fixed, IH.
Qed.

Lemma upper_hex_trimmed s :
  all_chars is_upper_hex_digit s = true -> trimmed s.
Proof.
  intros H. split.
  - destruct s as [|c t]; [reflexivity|]. simpl in *.
    apply andb_prop in H as [Hc _]. now rewrite upper_hex_not_space.
  - induction s as [|c t IH]; [reflexivity|]. simpl in H.
    apply andb_prop in H as [Hc Ht].
    rewrite rstrip_cons by now apply upper_hex_not_space.
    now rewrite IH.
Qed.

Lemma literal_char_upper c : literal_char (upper_char c) = literal_char c.
Proof. each_char c. Qed.

Lemma upper_hex_plain c :
  is_upper_hex_digit c = true ->
  Ascii.eqb c "+" = false /\ Ascii.eqb c "-" = false /\
  Ascii.eqb c "x" || Ascii.eqb c "X" = false.
Proof. each_char c; intros _; repeat split. Qed.

Lemma hex_value_literal c d :
  digit_value c = Some d -> (d <? 16) = true -> literal_char c = true.
Proof. each_char c; intros [= <-]; discriminate. Qed.

Lemma scan_upper_hex u :
  all_chars is_upper_hex_digit u = true ->
  forall acc, exists v, scan_digits 16 false acc u = Some v.
Proof.
  induction u as [|c t IH]; simpl; intros H acc; [now exists acc|].
  apply andb_prop in H as [Hc Ht].
  destruct (upper_hex_scanned c Hc) as [-> (d & -> & ->)].
  apply IH, Ht.
Qed.

Lemma scan_literal u :
  forall prev acc v,
    scan_digits 16 prev acc u = Some v -> all_chars literal_char u = true.
Proof.
  induction u as [|c t IH]; simpl; intros prev acc v H; [reflexivity|].
  destruct (Ascii.eqb c "_") eqn:Hu.
  - apply Ascii.eqb_eq in Hu as ->.
    destruct prev; [discriminate|]. now rewrite (IH _ _ _ H).
  - destruct (digit_value c) as [d|] eqn:Hd; [|discriminate].
    destruct (d <? 16) eqn:Hlt; [|discriminate].
    now rewrite (hex_value_literal c d Hd Hlt), (IH _ _ _ H).
Qed.

Lemma int_base16_upper_hex u :
  u <> "" -> all_chars is_upper_hex_digit u = true ->
  exists v, int_base16 u = Some v.
Proof.
  intros Hne H. unfold int_base16.
  rewrite (trimmed_c_strip u) by now apply upper_hex_trimmed.
  destruct u as [|c t]; [congruence|].
  pose proof H as H0. simpl in H0. apply andb_prop in H0 as [Hc Ht].
  destruct (upper_hex_plain c Hc) as (Hp & Hm & _).
  unfold skip_sign. rewrite Hp, Hm.
  assert (Hs : skip_prefix16 (String c t) = String c t).
  { destruct t as [|x t']; [reflexivity|]. simpl in Ht.
    apply andb_prop in Ht as [Hx _].
    destruct (upper_hex_plain x Hx) as (_ & _ & Hxx).
    unfold skip_prefix16. now rewrite Hxx, andb_false_r. }
  rewrite Hs.
  destruct (upper_hex_scanned c Hc) as [-> _].
  destruct (scan_upper_hex _ H 0) as [v ->]. now exists v.
Qed.

Lemma skip_prefix16_literal s :
  all_chars literal_char (skip_prefix16 s) = true ->
  all_chars literal_char s = true.
Proof.
  destruct s as [|c [|x t]]; try (intros H; exact H).
  unfold skip_prefix16.
  destruct (Ascii.eqb c "0" && (Ascii.eqb x "x" || Ascii.eqb x "X")) eqn:E;
    [|intros H; exact H].
  apply andb_prop in E as [Hc Hx]. apply Ascii.eqb_eq in Hc as ->.
  assert (Hxl : literal_char x = true).
  { apply orb_prop in Hx as [->%Ascii.eqb_eq | ->%Ascii.eqb_eq]; reflexivity. }
  intros H.
  change (literal_char "0" && (literal_char x && all_chars literal_char t)
          = true).
  rewrite Hxl. simpl.
  destruct t as [|u t']; [reflexivity|].
  destruct (Ascii.eqb u "_") eqn:Hu; [|exact H].
  apply Ascii.eqb_eq in Hu as ->. simpl. exact H.
Qed.

Lemma skip_sign_literal s :
  all_chars literal_char (skip_sign s).2 = true ->
  all_chars literal_char s = true.
Proof.
  destruct s as [|c t]; [reflexivity|]. unfold skip_sign.
  destruct (Ascii.eqb c "+") eqn:Hp;
    [apply Ascii.eqb_eq in Hp as ->; simpl; intros ->; reflexivity|].
  destruct (Ascii.eqb c "-") eqn:Hm;
    [apply Ascii.eqb_eq in Hm as ->; simpl; intros ->; reflexivity|].
  intros H; exact H.
Qed.

Lemma int_base16_literal u v :
  int_base16 u = Some v -> all_chars literal_char (c_strip u) = true.
Proof.
  unfold int_base16. intros H.
  apply skip_sign_literal.
  destruct (skip_sign (c_strip u)) as [negative s2]. simpl.
  apply skip_prefix16_literal.
  destruct (skip_prefix16 s2) as [|c t]; [discriminate|].
  destruct (Ascii.eqb c "_"); [discriminate|].
  destruct (scan_digits 16 false 0 (String c t)) as [w|] eqn:E; [|discriminate].
  exact (scan_literal _ _ _ _ E).
Qed.
Lemma all_literal_upper s :
  all_chars literal_char (upper s) = all_chars literal_char s.
Proof.
  induction s as [|c t IH]; simpl; [reflexivity|].
  now rewrite literal_char_upper, IH.
Qed.

(** ** [validate_icao] and [normalize_icao] *)

Lemma validate_icao_true w :
  validate_icao (Some w) = true ->
  String.length (strip w) = 6%nat /\
  all_chars literal_char (strip w) = true.
Proof.
  unfold validate_icao.
  destruct (str_truthy w); simpl; [|discriminate].
  destruct (String.length (upper (strip w)) =? 6)%nat eqn:Hlen; simpl;
    [|discriminate].
  destruct (int_base16 (upper (strip w))) as [v|] eqn:Hint; [|discriminate].
  intros _. split.
  - apply Nat.eqb_eq in Hlen. now rewrite length_upper in Hlen.
  - apply int_base16_literal in Hint.
    rewrite trimmed_c_strip in Hint
      by apply trimmed_upper, strip_trimmed.
    now rewrite all_literal_upper in Hint.
Qed.

Lemma validate_icao_upper_hex u :
  String.length u = 6%nat ->
  all_chars is_upper_hex_digit u = true ->
  validate_icao (Some u) = true.
Proof.
  intros Hlen Hhex. unfold validate_icao.
  assert (Hne : u <> "") by (intros ->; discriminate).
  destruct u as [|c t] eqn:Eu; [congruence|]. rewrite <- Eu in *.
  replace (str_truthy u) with true by now rewrite Eu.
  simpl.
  rewrite (trimmed_strip u) by now apply upper_hex_trimmed.
  rewrite (upper_hex_upper u Hhex), Hlen. simpl.
  now destruct (int_base16_upper_hex u Hne Hhex) as [v ->].
Qed.

Lemma normalize_icao_nonempty s :
  s <> "" ->
  normalize_icao s =
    let icao := upper (strip s) in
    let padded := replicate_char (6 - String.length icao) "0" ++ icao in
    let icao :=
      if (String.length icao <? 6)%nat && validate_icao (Some padded)
      then padded else icao in
    if validate_icao (Some icao) then icao else "".
Proof. destruct s; [congruence | reflexivity]. Qed.

Lemma normalize_icao_pads s :
  s <> "" ->
  (String.length (strip s) < 6)%nat ->
  all_chars is_hex_digit (strip s) = true ->
  normalize_icao s =
    replicate_char (6 - String.length (strip s)) "0" ++ upper (strip s)
  /\ String.length (normalize_icao s) = 6%nat
  /\ all_chars is_upper_hex_digit (normalize_icao s) = true.
Proof.
  intros Hne Hlen Hhex.
  rewrite normalize_icao_nonempty by assumption. cbv zeta.
  rewrite length_upper.
  remember (replicate_char (6 - String.length (strip s)) "0"
            ++ upper (strip s)) as padded eqn:Ep.
  assert (Hl : String.length padded = 6%nat).
  { rewrite Ep, length_zeros, length_upper. lia. }
  assert (Hh : all_chars is_upper_hex_digit padded = true).
  { now rewrite Ep, all_chars_app, all_chars_zeros, all_hex_upper. }
  assert (Hv : validate_icao (Some padded) = true)
    by now apply validate_icao_upper_hex.
  apply Nat.ltb_lt in Hlen. rewrite Hlen, Hv. cbn [andb]. rewrite Hv. auto.
Qed.

Lemma normalize_icao_result s :
  normalize_icao s <> "" ->
  exists n, normalize_icao s = replicate_char n "0" ++ upper (strip s)
            /\ validate_icao (Some (normalize_icao s)) = true.
Proof.
  destruct (string_dec s "") as [->|Hne]; [intros H; now destruct H|].
  rewrite normalize_icao_nonempty by assumption. cbv zeta.
  set (t := upper (strip s)).
  set (padded := replicate_char (6 - String.length t) "0" ++ t).
  destruct ((String.length t <? 6)%nat && validate_icao (Some padded)).
  - destruct (validate_icao (Some padded)) eqn:Hv; [|congruence].
    intros _. now exists (6 - String.length t)%nat.
  - destruct (validate_icao (Some t)) eqn:Hv; [|congruence].
    intros _. now exists 0%nat.
Qed.

Lemma normalize_icao_shape s :
  normalize_icao s <> "" ->
  String.length (normalize_icao s) = 6%nat
  /\ (String.length (strip s) <= 6)%nat
  /\ all_chars literal_char (strip s) = true.
Proof.
  intros H. destruct (normalize_icao_result s H) as (n & E & Hv).
  apply validate_icao_true in Hv as [Hlen Hlit].
  assert (Ht : trimmed (replicate_char n "0" ++ upper (strip s)))
    by apply trimmed_zeros, trimmed_upper, strip_trimmed.
  rewrite E in Hlen, Hlit. rewrite (trimmed_strip _ Ht) in Hlen, Hlit.
  rewrite length_zeros, length_upper in Hlen.
  rewrite all_chars_app, all_literal_upper in Hlit.
  apply andb_prop in Hlit as [_ Hlit].
  rewrite E, length_zeros, length_upper. repeat split; [lia | lia | exact Hlit].
Qed.

(** C1 (as amended).  The inputs are the strings of ASCII characters.  For
    every non-empty input whose form without the surrounding white space
    consists of fewer than six hexadecimal digits, [normalize_icao] returns
    that form in upper case, left-padded with zeros to exactly six
    upper-case hexadecimal characters.  It returns the empty string, its
    failure value, for the empty input, for every input whose form without
    the surrounding white space is longer than six characters, and for
    every input whose form without the surrounding white space contains a
    character that is neither a hexadecimal digit nor one of [+], [-], [_],
    [x] and [X]. *)
Theorem normalize_icao_spec :
  (forall s,
      all_chars is_ascii s = true ->
      s <> "" ->
      (String.length (strip s) < 6)%nat ->
      all_chars is_hex_digit (strip s) = true ->
      normalize_icao s =
        replicate_char (6 - String.length (strip s)) "0" ++ upper (strip s)
      /\ String.length (normalize_icao s) = 6%nat
      /\ all_chars is_upper_hex_digit (normalize_icao s) = true)
  /\ normalize_icao "" = ""
  /\ (forall s,
        all_chars is_ascii s = true ->
        (6 < String.length (strip s))%nat -> normalize_icao s = "")
  /\ (forall s,
        all_chars is_ascii s = true ->
        all_chars literal_char (strip s) = false -> normalize_icao s = "").
Proof.
  split; [intros s _; apply normalize_icao_pads|].
  split; [reflexivity|].
  split; intros s _ H.
  - destruct (string_dec (normalize_icao s) "") as [E|E]; [exact E|].
    apply normalize_icao_shape in E as (_ & Hle & _). lia.
  - destruct (string_dec (normalize_icao s) "") as [E|E]; [exact E|].
    apply normalize_icao_shape in E as (_ & _ & Hlit). congruence.
Qed.

(** The theorem above at ["a1"], ["  12345678  "] and ["ghi"]. *)
Lemma normalize_icao_spec_witness :
  normalize_icao "a1" = "0000A1"
  /\ normalize_icao "  12345678  " = ""
  /\ normalize_icao "ghi" = "".
Proof.
  destruct normalize_icao_spec as (Hpad & _ & Hlong & Hbad).
  split; [|split].
  - destruct (Hpad "a1") as (E & _);
      [reflexivity | discriminate | simpl; lia | reflexivity |].
    exact E.
  - apply Hlong; [reflexivity | simpl; lia].
  - apply Hbad; reflexivity.
Defined.

(** C1 (as stated) fails.  The empty input is shorter than six characters
    and is answered with the empty string, not with six characters; the
    input ["  abc123  "], of the repository's own test, is longer than six
    characters, contains characters that are not hexadecimal digits, and is
    answered with an identifier. *)
Lemma normalize_icao_counterexample :
  (String.length "" < 6)%nat
  /\ String.length (normalize_icao "") = 0%nat
  /\ (6 < String.length "  abc123  ")%nat
  /\ all_chars is_hex_digit "  abc123  " = false
  /\ normalize_icao "  abc123  " = "ABC123".
Proof. repeat split; simpl; lia. Qed.

(** ** [process_dump1090_json] *)






(** ** [cleanup_old_aircraft] *)

Lemma foldl_delete_lookup (l : list string) :
  forall (m : gmap string Aircraft) k,
    foldl (fun cache icao => delete icao cache) m l !! k =
    if decide (k ∈ l) then None else m !! k.
Proof.
  induction l as [|i l IH]; intros m k.
  - destruct (decide (k ∈ [])) as [Hin|_]; [|reflexivity].
    now apply elem_of_nil in Hin.
  - change (foldl (fun cache icao => delete icao cache) (delete i m) l !! k
            = if decide (k ∈ i :: l) then None else m !! k).
    rewrite IH.
    destruct (decide (k ∈ l)) as [Hin|Hnin];
      destruct (decide (k ∈ i :: l)) as [Hin'|Hnin']; try reflexivity.
    + exfalso. apply Hnin'. now right.
    + apply elem_of_cons in Hin' as [->|?]; [|contradiction].
      apply lookup_delete_eq.
    + apply lookup_delete_ne. intros ->. apply Hnin'. left.
Qed.

Lemma cleanup_is_filter max_age now (cache : gmap string Aircraft) :
  (cleanup_old_aircraft max_age now cache).2 =
  filter (fun kv => is_old max_age now kv.2 = false) cache.
Proof.
  unfold cleanup_old_aircraft. simpl.
  apply map_eq. intros k. rewrite foldl_delete_lookup.
  apply option_eq. intros a. rewrite map_lookup_filter_Some. simpl.
  destruct (decide _) as [Hin|Hnin].
  - split; [discriminate|]. intros [Hk Hold].
    apply list_elem_of_fmap in Hin as ([k' a'] & -> & Hin).
    apply list_elem_of_filter in Hin as [Hold' Hin].
    apply elem_of_map_to_list in Hin. simpl in *. congruence.
  - split; [|now intros [? _]]. intros Hk. split; [exact Hk|].
    destruct (is_old max_age now a) eqn:Hold; [|reflexivity].
    exfalso. apply Hnin. apply list_elem_of_fmap. exists (k, a).
    split; [reflexivity|]. apply list_elem_of_filter. split; [exact Hold|].
    now apply elem_of_map_to_list.
Qed.

Lemma is_old_zero now a :
  is_old (of_Z 0) now a = true <->
  exists ts, timestamp a = Some ts /\ ts < now.
Proof.
  unfold is_old. destruct (timestamp a) as [ts|].
  - unfold num_gt, num_lt, total_seconds, of_Z, Qle_bool. simpl.
    rewrite negb_true_iff, Z.leb_gt. split.
    + intros H. exists ts. split; [reflexivity | lia].
    + intros (ts' & [= <-] & H). lia.
  - split; [discriminate | now intros (? & ? & _)].
Qed.

Lemma is_old_infinity now a : is_old PosInf now a = false.
Proof. unfold is_old. now destruct (timestamp a). Qed.

Lemma is_old_seconds (m : Z) now a :
  is_old (of_Z m) now a = true <->
  exists ts, timestamp a = Some ts /\ m * 1000000 < now - ts.
Proof.
  unfold is_old. destruct (timestamp a) as [ts|].
  - unfold num_gt, num_lt, total_seconds, of_Z, Qle_bool. simpl.
    rewrite negb_true_iff, Z.leb_gt. split.
    + intros H. exists ts. split; [reflexivity | lia].
    + intros (ts' & [= <-] & H). lia.
  - split; [discriminate | now intros (? & ? & _)].
Qed.

(** C4 (as amended).  [cleanup_old_aircraft] removes exactly the entries
    that have a timestamp and whose age [now - last_seen] exceeds [max_age],
    and leaves every other entry as it is; it returns nothing, not the
    number of entries removed.  With [max_age = 0] it empties the table when
    every entry was last seen strictly before [now].  With an infinite
    [max_age] it leaves the table unchanged. *)
Theorem cleanup_old_aircraft_spec :
  (forall max_age now (cache : gmap string Aircraft),
      cleanup_old_aircraft max_age now cache =
      (tt, filter (fun kv => is_old max_age now kv.2 = false) cache))
  /\ (forall (m : Z) now a,
         is_old (of_Z m) now a = true <->
         exists ts, timestamp a = Some ts /\ m * 1000000 < now - ts)
  /\ (forall now (cache : gmap string Aircraft),
         (forall k a, cache !! k = Some a ->
                      exists ts, timestamp a = Some ts /\ ts < now) ->
         (cleanup_old_aircraft (of_Z 0) now cache).2 = ∅)
  /\ (forall now (cache : gmap string Aircraft),
         (cleanup_old_aircraft PosInf now cache).2 = cache).
Proof.
  split; [|split; [|split]].
  - intros max_age now cache.
    rewrite <- (cleanup_is_filter max_age now cache).
    now destruct (cleanup_old_aircraft max_age now cache) as [[] c].
  - exact is_old_seconds.
  - intros now cache H. rewrite cleanup_is_filter.
    apply map_empty. intros k. apply eq_None_not_Some. intros [a Ha].
    apply map_lookup_filter_Some in Ha as [Hk Hold]. simpl in Hold.
    destruct (H k a Hk) as (ts & Hts & Hlt).
    assert (is_old (of_Z 0) now a = true) by (apply is_old_zero; eauto).
    congruence.
  - intros now cache. rewrite cleanup_is_filter.
    apply map_filter_id. intros k a _. apply is_old_infinity.
Qed.

(** The theorem above at a table of one aircraft seen at 50, cleaned at
    100 with [max_age = 0]. *)
Lemma cleanup_old_aircraft_spec_witness :
  (cleanup_old_aircraft (of_Z 0) 100 {[ "ABC123" := seen_at 50 ]}).2 = ∅.
Proof.
  destruct cleanup_old_aircraft_spec as (_ & _ & Hzero & _).
  apply Hzero. intros k a [_ <-]%lookup_singleton_Some.
  exists 50. split; [reflexivity | lia].
Defined.

(** C4 (as stated) fails.  An aircraft seen at the very time of the clean-up
    has age 0, which does not exceed [max_age = 0]: the table is not
    emptied. *)
Lemma cleanup_old_aircraft_counterexample :
  cleanup_old_aircraft (of_Z 0) 100 {[ "ABC123" := seen_at 100 ]} =
  (tt, {[ "ABC123" := seen_at 100 ]}).
Proof. vm_compute. reflexivity. Qed.

(** ** [update_statistics] *)

Lemma filter_negb_filter {A} (p : A -> bool) l :
  List.filter p (List.filter (fun x => negb (p x)) l) = [].
Proof.
  induction l as [|x l IH]; [reflexivity|]. simpl.
  destruct (p x) eqn:E; simpl; [exact IH | now rewrite E].
Qed.

Lemma filter_idem {A} (p : A -> bool) l :
  List.filter p (List.filter p l) = List.filter p l.
Proof.
  induction l as [|x l IH]; [reflexivity|]. simpl.
  destruct (p x) eqn:E; simpl; [now rewrite E, IH | exact IH].
Qed.

Lemma update_statistics_nonempty now db :
  available db = true ->
  positions_of_day now db <> [] ->
  update_statistics now db =
  (true,
   set_statistics db
     (List.filter
        (fun s => negb (in_window (start_of_day now) (start_of_day now + day)
                                  (date s)))
        (statistics db)
      ++ [compute_statistics now (start_of_day now)
                             (positions_of_day now db)])).
Proof.
  intros Ha Hne. unfold update_statistics. rewrite Ha.
  fold (positions_of_day now db).
  now destruct (positions_of_day now db).
Qed.

Lemma update_statistics_empty now db :
  positions_of_day now db = [] ->
  update_statistics now db = (available db, db).
Proof.
  intros He. unfold update_statistics.
  fold (positions_of_day now db). rewrite He. now destruct (available db).
Qed.

Lemma start_of_day_in_window now :
  in_window (start_of_day now) (start_of_day now + day) (start_of_day now)
  = true.
Proof.
  unfold in_window. apply andb_true_intro. split.
  - apply Z.leb_le. lia.
  - apply Z.ltb_lt. unfold day. lia.
Qed.

Lemma statistics_of_day_updated now db :
  available db = true ->
  positions_of_day now db <> [] ->
  statistics_of_day now (update_statistics now db).2 =
  [compute_statistics now (start_of_day now) (positions_of_day now db)].
Proof.
  intros Ha Hne. rewrite update_statistics_nonempty by assumption.
  unfold statistics_of_day. simpl.
  rewrite List.filter_app, filter_negb_filter. simpl.
  now rewrite start_of_day_in_window.
Qed.

(** C5 (as amended).  When the day has at least one position row and the
    store is reachable, running [update_statistics] twice on that day, the
    position rows being the same, leaves exactly one row of [statistics] for
    the day after each run, the two rows have the same aggregate values, and
    the position rows are untouched.  When the day has no position row a run
    succeeds and leaves the store as it is: it writes no row and deletes
    none. *)
Theorem update_statistics_twice :
  (forall now1 now2 db,
      available db = true ->
      start_of_day now1 = start_of_day now2 ->
      positions_of_day now1 db <> [] ->
      let db1 := (update_statistics now1 db).2 in
      let db2 := (update_statistics now2 db1).2 in
      exists s1 s2,
        statistics_of_day now1 db1 = [s1]
        /\ statistics_of_day now1 db2 = [s2]
        /\ aggregates s1 = aggregates s2
        /\ (update_statistics now1 db).1 = true
        /\ (update_statistics now2 db1).1 = true
        /\ aircraft_positions db2 = aircraft_positions db)
  /\ (forall now db,
         available db = true ->
         positions_of_day now db = [] ->
         update_statistics now db = (true, db)).
Proof.
  split.
  - intros now1 now2 db Ha Hday Hne db1 db2.
    assert (Hp1 : aircraft_positions db1 = aircraft_positions db).
    { unfold db1. now rewrite update_statistics_nonempty. }
    assert (Ha1 : available db1 = true).
    { unfold db1. now rewrite update_statistics_nonempty. }
    assert (Hd1 : positions_of_day now2 db1 = positions_of_day now1 db).
    { unfold positions_of_day. now rewrite Hp1, Hday. }
    assert (Hne1 : positions_of_day now2 db1 <> []) by now rewrite Hd1.
    assert (Hs : statistics_of_day now1 db2 = statistics_of_day now2 db2).
    { unfold statistics_of_day. now rewrite Hday. }
    exists (compute_statistics now1 (start_of_day now1)
                               (positions_of_day now1 db)),
           (compute_statistics now2 (start_of_day now2)
                               (positions_of_day now2 db1)).
    split; [now apply statistics_of_day_updated|].
    split; [rewrite Hs; now apply statistics_of_day_updated|].
    split; [now rewrite Hd1, Hday|].
    split; [now rewrite update_statistics_nonempty|].
    split; [now rewrite update_statistics_nonempty|].
    unfold db2. now rewrite update_statistics_nonempty.
  - intros now db Ha He. now rewrite update_statistics_empty, Ha.
Qed.

(** The theorem above at a store with one position, for two runs at times
    10 and 20 of the same day. *)
Lemma update_statistics_twice_witness :
  let db := store_of [row_at 42 (-75) 5] in
  let db1 := (update_statistics 10 db).2 in
  let db2 := (update_statistics 20 db1).2 in
  exists s1 s2,
    statistics_of_day 10 db1 = [s1]
    /\ statistics_of_day 10 db2 = [s2]
    /\ aggregates s1 = aggregates s2
    /\ (update_statistics 10 db).1 = true
    /\ (update_statistics 20 db1).1 = true
    /\ aircraft_positions db2 = aircraft_positions db.
Proof.
  apply (proj1 update_statistics_twice 10 20 (store_of [row_at 42 (-75) 5])).
  - reflexivity.
  - reflexivity.
  - discriminate.
Defined.

(** C5 (as stated) fails.  On a day with no position row two runs succeed
    and leave no row of [statistics] at all. *)
Lemma update_statistics_counterexample :
  update_statistics 10 (store_of []) = (true, store_of [])
  /\ update_statistics 20 (update_statistics 10 (store_of [])).2
     = (true, store_of [])
  /\ statistics_of_day 10
       (update_statistics 20 (update_statistics 10 (store_of [])).2).2 = [].
Proof. repeat split. Qed.

(** On a day with no position row, a row of [statistics] of that day
    written earlier stays. *)
Example update_statistics_keeps_earlier_row :
  let db := {| available := true; aircraft_positions := [];
               statistics := [statistics_at 0] |} in
  update_statistics 10 db = (true, db)
  /\ statistics_of_day 10 (update_statistics 10 db).2 = [statistics_at 0].
Proof. split; reflexivity. Qed.

(** ** [get_aircraft_positions] and [export_data] *)

Lemma get_aircraft_positions_unreachable icao start_time end_time limit db :
  available db = false ->
  get_aircraft_positions icao start_time end_time limit db = [].
Proof. intros H. unfold get_aircraft_positions. now rewrite H. Qed.

Lemma get_aircraft_positions_no_match icao start_time end_time limit db :
  List.filter (matches icao start_time end_time) (aircraft_positions db) = [] ->
  get_aircraft_positions icao start_time end_time limit db = [].
Proof.
  intros H. unfold get_aircraft_positions. rewrite H. simpl.
  destruct (available db); [now rewrite take_nil | reflexivity].
Qed.

Lemma export_data_nothing format start_time end_time output_file bounds
      writable now self :
  get_aircraft_positions None start_time end_time (Z.to_nat 10000)
                         (database_ self) = [] ->
  export_data format start_time end_time output_file bounds writable now self
  = (false, None).
Proof. intros H. unfold export_data. now rewrite H. Qed.

(** C6 (as amended).  The value returned when the store operation fails is
    the same as the value returned when it succeeds with no matching row:
    [get_aircraft_positions] returns the empty list in both cases, and
    [export_data] returns [False] and writes no file in both cases, so the
    caller cannot tell them apart. *)
Theorem failure_looks_like_no_data :
  forall format start_time end_time output_file bounds writable now
         failed empty,
    available (database_ failed) = false ->
    available (database_ empty) = true ->
    List.filter (matches None start_time end_time)
                (aircraft_positions (database_ empty)) = [] ->
    (forall limit,
        get_aircraft_positions None start_time end_time limit
                               (database_ failed) = []
        /\ get_aircraft_positions None start_time end_time limit
                                  (database_ empty) = [])
    /\ export_data format start_time end_time output_file bounds writable now
                   failed = (false, None)
    /\ export_data format start_time end_time output_file bounds writable now
                   empty = (false, None).
Proof.
  intros format start_time end_time output_file bounds writable now
         failed empty Hf _ He.
  split; [intros limit; split|split].
  - now apply get_aircraft_positions_unreachable.
  - now apply get_aircraft_positions_no_match.
  - apply export_data_nothing. now apply get_aircraft_positions_unreachable.
  - apply export_data_nothing. now apply get_aircraft_positions_no_match.
Qed.

(** The theorem above for a JSON export of the time range [1000, 2000]: an
    unreachable store that holds a position of that range, and a reachable
    store whose only position is outside of it. *)
Lemma failure_looks_like_no_data_witness :
  (forall limit,
      get_aircraft_positions None (Some 1000) (Some 2000) limit
        (database_ (app_on (unreachable (store_of [row_at 42 (-75) 1500]))))
      = []
      /\ get_aircraft_positions None (Some 1000) (Some 2000) limit
           (database_ (app_on (store_of [row_at 42 (-75) 5]))) = [])
  /\ export_data "json" (Some 1000) (Some 2000) None None true 3000
       (app_on (unreachable (store_of [row_at 42 (-75) 1500])))
     = (false, None)
  /\ export_data "json" (Some 1000) (Some 2000) None None true 3000
       (app_on (store_of [row_at 42 (-75) 5]))
     = (false, None).
Proof.
  apply (failure_looks_like_no_data "json" (Some 1000) (Some 2000) None None
           true 3000
           (app_on (unreachable (store_of [row_at 42 (-75) 1500])))
           (app_on (store_of [row_at 42 (-75) 5]))).
  - reflexivity.
  - reflexivity.
  - reflexivity.
Defined.

(** C6 (as stated) fails.  An export over a time range that matches no
    position and an export whose store query failed return the same value,
    and so do the two queries. *)
Lemma export_failure_counterexample :
  export_data "json" (Some 1000) (Some 2000) None None true 3000
    (app_on (store_of [row_at 42 (-75) 5]))
  = export_data "json" (Some 1000) (Some 2000) None None true 3000
      (app_on (unreachable (store_of [row_at 42 (-75) 1500])))
  /\ get_aircraft_positions None (Some 1000) (Some 2000) default_limit
       (store_of [row_at 42 (-75) 5])
     = get_aircraft_positions None (Some 1000) (Some 2000) default_limit
         (unreachable (store_of [row_at 42 (-75) 1500])).
Proof. split; reflexivity. Qed.

Lemma inside_nonzero south west north east pos la lo :
  p_latitude pos = Some la -> p_longitude pos = Some lo ->
  num_truthy la = true -> num_truthy lo = true ->
  inside south west north east pos
  = in_range south la north && in_range west lo east.
Proof.
  intros Hla Hlo Hta Hto. unfold inside. now rewrite Hla, Hlo, Hta, Hto.
Qed.

(** The scenario of the design document: of the positions (42, -75) and
    (50, -75), the bounds ["40,-80,45,-70"] keep the first one only. *)
Example export_geojson_scenario :
  export_data "geojson" None None (Some "out.geojson")
    (Some "40,-80,45,-70") true 9
    (app_on (store_of [row_at 42 (-75) 5; row_at 50 (-75) 6]))
  = (true,
     Some (Given "out.geojson",
           GeoJsonDocument
             [{| coordinates := (of_Z (-75), of_Z 42);
                 properties :=
                   {| f_icao := "ABC123"; f_callsign := Some "UAL123";
                      f_altitude := Some 35000; f_speed := Some (of_Z 450);
                      f_heading := Some (of_Z 270); f_squawk := Some "1234";
                      f_timestamp := Some (isoformat 5) |} |}])).
Proof. reflexivity. Qed.

(** C3: the code at a failing input.  A stored position on the equator,
    (0, -75), lies within the bounds ["-10,-80,10,-70"], yet the export
    leaves it out: the filter tests the latitude for truthiness, and 0 is
    falsy.  The JSON export holds no position and the GeoJSON export no
    feature. *)
Theorem export_bounds_drop_equator :
  in_range (of_Z (-10)) (of_Z 0) (of_Z 10) = true
  /\ in_range (of_Z (-80)) (of_Z (-75)) (of_Z (-70)) = true
  /\ export_data "json" None None (Some "out.json")
       (Some "-10,-80,10,-70") true 9
       (app_on (store_of [row_at 0 (-75) 5]))
     = (true, Some (Given "out.json", JsonDocument (isoformat 9) 0 []))
  /\ export_data "geojson" None None (Some "out.geojson")
       (Some "-10,-80,10,-70") true 9
       (app_on (store_of [row_at 0 (-75) 5]))
     = (true, Some (Given "out.geojson", GeoJsonDocument [])).
Proof. repeat split. Qed.

Lemma apply_bounds_three_parts positions :
  apply_bounds (Some "40,-80,45") positions = Some positions.
Proof. reflexivity. Qed.

Example export_bounds_not_a_number :
  export_data "json" None None (Some "out.json") (Some "40,-80,45,north")
    true 9 (app_on (store_of [row_at 42 (-75) 5; row_at 50 (-75) 6]))
  = (false, None).
Proof. reflexivity. Qed.

(** C7: the code at a failing input.  The bounds string ["40,-80,45"] has
    three numbers instead of four.  The export does not fail: it returns
    [True] and writes both stored positions, the one at latitude 50
    included, without any filtering. *)
Theorem export_bounds_three_numbers :
  export_data "json" None None (Some "out.json") (Some "40,-80,45") true 9
    (app_on (store_of [row_at 42 (-75) 5; row_at 50 (-75) 6]))
  = (true,
     Some (Given "out.json",
           JsonDocument (isoformat 9) 2
             [position_dict (row_at 50 (-75) 6);
              position_dict (row_at 42 (-75) 5)])).
Proof. reflexivity. Qed.

(** ** [start] and [stop] *)

(** C8.  [start] in the Running state changes nothing and reports [False];
    [start] in the Stopped state reports [True] and leaves the state
    Running.  [stop] in the Stopped state changes nothing and reports
    [False]; so after any [stop] the state is Stopped and a second [stop]
    is such a no-op. *)
Theorem start_stop_spec :
  (forall self, running self = true -> start self = (false, self))
  /\ (forall self,
         running self = false ->
         (start self).1 = true /\ running (start self).2 = true)
  /\ (forall exits self,
         running self = false -> stop exits self = (false, self))
  /\ (forall exits1 exits2 self,
         running (stop exits1 self).2 = false
         /\ stop exits2 (stop exits1 self).2 = (false, (stop exits1 self).2)).
Proof.
  assert (Hstopped : forall exits self,
             running self = false -> stop exits self = (false, self)).
  { intros exits self H. unfold stop. now rewrite H. }
  assert (Hafter : forall exits self, running (stop exits self).2 = false).
  { intros exits self. unfold stop.
    destruct (running self) eqn:H; simpl; [reflexivity | exact H]. }
  split; [|split; [|split]].
  - intros self H. unfold start. now rewrite H.
  - intros self H. unfold start. now rewrite H.
  - exact Hstopped.
  - intros exits1 exits2 self. split; [apply Hafter|].
    apply Hstopped, Hafter.
Qed.

(** The theorem above on an application that is started, started again,
    stopped and stopped again. *)
Lemma start_stop_spec_witness :
  let s0 := app_on (store_of []) in
  let s1 := (start s0).2 in
  let s2 := (stop true s1).2 in
  ((start s0).1 = true /\ running s1 = true)
  /\ start s1 = (false, s1)
  /\ stop true s1 = (true, s2)
  /\ stop true s2 = (false, s2).
Proof.
  destruct start_stop_spec as (Hrun & Hstart & Hstop & _).
  intros s0 s1 s2. split; [|split; [|split]].
  - apply Hstart. reflexivity.
  - apply Hrun. reflexivity.
  - reflexivity.
  - apply Hstop. reflexivity.
Defined.

(** ** [store_aircraft_positions] and the way back *)

Lemma in_range_real lo x hi :
  in_range lo x hi = true -> sql_real (Some x) = Some x.
Proof. destruct x; try reflexivity. now destruct lo. Qed.

Lemma is_valid_stored now a :
  is_valid a = true ->
  row_latitude (stored (position_row now a)) = latitude a
  /\ row_longitude (stored (position_row now a)) = longitude a
  /\ valid_row (stored (position_row now a)) = true.
Proof.
  unfold is_valid, valid_row. cbn [stored position_row row_latitude
    row_longitude].
  destruct (latitude a) as [la|]; [|discriminate].
  destruct (longitude a) as [lo|]; [|discriminate].
  intros H. destruct (andb_prop _ _ H) as [Hla Hlo].
  rewrite (in_range_real _ _ _ Hla), (in_range_real _ _ _ Hlo).
  now rewrite H.
Qed.

Lemma In_stored_rows now l r :
  In r (map stored (map (position_row now) (List.filter is_valid l))) ->
  exists a, In a l /\ is_valid a = true /\ r = stored (position_row now a).
Proof.
  rewrite map_map. intros (a & <- & Ha)%in_map_iff.
  apply filter_In in Ha as [Ha Hv]. eauto.
Qed.

Lemma store_aircraft_positions_commit aircraft_list now db :
  available db = true ->
  commit_accepts (map (position_row now) (List.filter is_valid aircraft_list))
  = true ->
  store_aircraft_positions aircraft_list now db
  = (length (List.filter is_valid aircraft_list),
     set_positions db
       (aircraft_positions db
        ++ map stored
             (map (position_row now) (List.filter is_valid aircraft_list)))).
Proof.
  intros Ha Hc. unfold store_aircraft_positions.
  now rewrite Ha, Hc, length_map.
Qed.

Lemma store_aircraft_positions_rollback aircraft_list now db :
  available db
  && commit_accepts
       (map (position_row now) (List.filter is_valid aircraft_list)) = false ->
  store_aircraft_positions aircraft_list now db
  = (length (List.filter is_valid aircraft_list), db).
Proof.
  intros H. unfold store_aircraft_positions. now rewrite H, length_map.
Qed.

(** C10.  Whatever the batch, the rows that [store_aircraft_positions]
    appends to the positions table all have a latitude and a longitude, the
    first within [-90, 90] and the second within [-180, 180]: each of them
    is the row of a report of the batch for which [is_valid] holds, with
    that report's identifier, latitude and longitude, the other reports
    being skipped, and the rows already in the table stay as they are.  The
    number returned is the number of reports for which [is_valid] holds,
    whether the commit kept their rows or not. *)
Theorem stored_rows_have_valid_position :
  forall aircraft_list now db,
    exists added,
      aircraft_positions (store_aircraft_positions aircraft_list now db).2
      = (aircraft_positions db ++ added)%list
      /\ forallb valid_row added = true
      /\ (forall r, In r added ->
            exists a, In a aircraft_list /\ is_valid a = true
                      /\ row_icao r = icao a
                      /\ row_latitude r = latitude a
                      /\ row_longitude r = longitude a)
      /\ (store_aircraft_positions aircraft_list now db).1
         = length (List.filter is_valid aircraft_list).
Proof.
  intros aircraft_list now db.
  destruct (available db
            && commit_accepts
                 (map (position_row now) (List.filter is_valid aircraft_list)))
    eqn:E.
  - apply andb_prop in E as [Ha Hc].
    rewrite store_aircraft_positions_commit by assumption.
    eexists. split; [reflexivity|]. split; [|split; [|reflexivity]].
    + apply forallb_forall. intros r Hr.
      apply In_stored_rows in Hr as (a & _ & Hv & ->).
      now apply is_valid_stored.
    + intros r Hr. apply In_stored_rows in Hr as (a & Hin & Hv & ->).
      exists a. destruct (is_valid_stored now a Hv) as (Hla & Hlo & _).
      repeat split; assumption.
  - rewrite store_aircraft_positions_rollback by assumption.
    exists []. rewrite app_nil_r. repeat split. intros r [].
Qed.


Lemma In_insert_desc r rows y :
  In y (insert_desc r rows) <-> y = r \/ In y rows.
Proof.
  induction rows as [|r' rows IH]; simpl.
  - intuition.
  - destruct (row_timestamp r' <=? row_timestamp r); simpl.
    + intuition.
    + rewrite IH. intuition.
Qed.

Lemma In_order_by_timestamp_desc rows y :
  In y (order_by_timestamp_desc rows) <-> In y rows.
Proof.
  induction rows as [|r rows IH]; simpl; [reflexivity|].
  rewrite In_insert_desc, IH. intuition.
Qed.



Lemma insert_desc_perm r rows : insert_desc r rows ≡ₚ r :: rows.
Proof.
  induction rows as [|r' rows IH]; simpl; [reflexivity|].
  destruct (row_timestamp r' <=? row_timestamp r); [reflexivity|].
  rewrite IH. apply Permutation_swap.
Qed.

Lemma order_by_timestamp_desc_perm rows :
  order_by_timestamp_desc rows ≡ₚ rows.
Proof.
  induction rows as [|r rows IH]; simpl; [reflexivity|].
  now rewrite insert_desc_perm, IH.
Qed.

Lemma insert_desc_sorted r rows :
  Sorted newer_or_equal rows -> Sorted newer_or_equal (insert_desc r rows).
Proof.
  induction rows as [|r' rows IH]; simpl; intros Hs.
  - repeat constructor.
  - destruct (row_timestamp r' <=? row_timestamp r) eqn:E.
    + constructor; [exact Hs|]. constructor. now apply Z.leb_le in E.
    + apply Z.leb_gt in E. inversion Hs as [|? ? Hs' Hhd]; subst.
      constructor; [now apply IH|].
      destruct rows as [|r'' rows]; simpl.
      * constructor. unfold newer_or_equal. lia.
      * destruct (row_timestamp r'' <=? row_timestamp r).
        -- constructor. unfold newer_or_equal. lia.
        -- constructor. now inversion Hhd.
Qed.

Lemma order_by_timestamp_desc_sorted rows :
  Sorted newer_or_equal (order_by_timestamp_desc rows).
Proof.
  induction rows as [|r rows IH]; simpl; [constructor|].
  now apply insert_desc_sorted.
Qed.





(** * Further properties *)

(** ** [validate_icao] and [normalize_icao], continued *)

Lemma upper_app a b : upper (a ++ b) = upper a ++ upper b.
Proof. induction a as [|c t IH]; simpl; [reflexivity | now rewrite IH]. Qed.

Lemma upper_zeros n : upper (replicate_char n "0") = replicate_char n "0".
Proof. induction n as [|n IH]; simpl; [reflexivity | now rewrite IH]. Qed.

Lemma validate_icao_nonempty w : validate_icao (Some w) = true -> w <> "".
Proof. intros H ->. discriminate. Qed.

Lemma validate_icao_fixed w :
  validate_icao (Some w) = true ->
  validate_icao (Some (upper (strip w))) = true.
Proof.
  intros H. pose proof (validate_icao_true w H) as [Hlen _].
  assert (Ht : str_truthy (upper (strip w)) = true).
  { rewrite <- length_upper in Hlen.
    destruct (upper (strip w)); [discriminate | reflexivity]. }
  unfold validate_icao in *.
  destruct (str_truthy w); [|discriminate]. simpl in H.
  now rewrite Ht, strip_upper, strip_idem, upper_idem.
Qed.

Lemma normalize_icao_valid w :
  validate_icao (Some w) = true -> normalize_icao w = upper (strip w).
Proof.
  intros H. rewrite normalize_icao_nonempty
    by now apply validate_icao_nonempty.
  cbv zeta. pose proof (validate_icao_true w H) as [Hlen _].
  rewrite length_upper, Hlen. cbn [Nat.ltb Nat.leb andb].
  now rewrite (validate_icao_fixed w H).
Qed.

(** X1.  [normalize_icao] is idempotent: normalizing its own result, the
    failure value included, gives that result again. *)
Theorem normalize_icao_idempotent s :
  normalize_icao (normalize_icao s) = normalize_icao s.
Proof.
  destruct (string_dec (normalize_icao s) "") as [E|E];
    [now rewrite E|].
  destruct (normalize_icao_result s E) as (n & Er & Hv).
  rewrite (normalize_icao_valid _ Hv).
  assert (Ht : trimmed (normalize_icao s)).
  { rewrite Er. apply trimmed_zeros, trimmed_upper, strip_trimmed. }
  rewrite (trimmed_strip _ Ht), Er.
  now rewrite upper_app, upper_zeros, upper_idem.
Qed.

(** X2.  The two functions agree: an identifier that [validate_icao]
    accepts is normalized to its upper-case form without the surrounding
    white space, and every result of [normalize_icao] other than the
    failure value has six characters and is accepted by [validate_icao]. *)
Theorem normalize_icao_agrees_with_validate_icao :
  (forall s, validate_icao (Some s) = true ->
             normalize_icao s = upper (strip s))
  /\ (forall s, normalize_icao s <> "" ->
                String.length (normalize_icao s) = 6%nat
                /\ validate_icao (Some (normalize_icao s)) = true).
Proof.
  split; [exact normalize_icao_valid|].
  intros s H. split.
  - now apply normalize_icao_shape.
  - now destruct (normalize_icao_result s H) as (n & _ & Hv).
Qed.

(** The theorem above at ["  abc123  "] and ["a1"]. *)
Lemma normalize_icao_agrees_with_validate_icao_witness :
  normalize_icao "  abc123  " = "ABC123"
  /\ validate_icao (Some (normalize_icao "a1")) = true.
Proof.
  destruct normalize_icao_agrees_with_validate_icao as [Hv Hn].
  split.
  - apply (Hv "  abc123  "). reflexivity.
  - apply (Hn "a1"). discriminate.
Defined.

(** ** [clean_callsign] *)

Lemma callsign_char_plain c :
  callsign_char c = true -> isspace c = false /\ upper_char c = c.
Proof. each_char c; intros _; split; reflexivity. Qed.

Lemma all_keep_chars p s : all_chars p (keep_chars p s) = true.
Proof.
  induction s as [|c t IH]; simpl; [reflexivity|].
  destruct (p c) eqn:E; simpl; [now rewrite E|exact IH].
Qed.

Lemma keep_chars_all p s : all_chars p s = true -> keep_chars p s = s.
Proof.
  induction s as [|c t IH]; simpl; [reflexivity|].
  intros [Hc Ht]%andb_prop. now rewrite Hc, IH.
Qed.

Lemma callsign_chars_trimmed s :
  all_chars callsign_char s = true -> trimmed s /\ upper s = s.
Proof.
  intros H. repeat split.
  - destruct s as [|c t]; [reflexivity|]. simpl in *.
    apply andb_prop in H as [Hc _].
    now destruct (callsign_char_plain c Hc) as [-> _].
  - induction s as [|c t IH]; [reflexivity|]. simpl in H.
    apply andb_prop in H as [Hc Ht].
    destruct (callsign_char_plain c Hc) as [Hs _].
    rewrite rstrip_cons by assumption. now rewrite IH.
  - induction s as [|c t IH]; [reflexivity|]. simpl in *.
    apply andb_prop in H as [Hc Ht].
    destruct (callsign_char_plain c Hc) as [_ ->]. now rewrite IH.
Qed.

Lemma clean_callsign_Some x r :
  clean_callsign x = Some r ->
  (2 <= String.length r <= 8)%nat /\ all_chars callsign_char r = true.
Proof.
  unfold clean_callsign. destruct x as [s|]; [|discriminate].
  destruct (str_truthy s); simpl; [|discriminate].
  destruct (str_truthy (upper (strip s))); simpl; [|discriminate].
  destruct (String.length _ <? 2)%nat eqn:E1; simpl; [discriminate|].
  destruct (8 <? String.length _)%nat eqn:E2; simpl; [discriminate|].
  intros [= <-]. apply Nat.ltb_ge in E1, E2.
  split; [lia | apply all_keep_chars].
Qed.

(** X3.  A callsign that [clean_callsign] returns has between 2 and 8
    characters, each of them an upper-case letter, a digit or a hyphen. *)
Theorem clean_callsign_shape x r :
  clean_callsign x = Some r ->
  (2 <= String.length r <= 8)%nat /\ all_chars callsign_char r = true.
Proof. apply clean_callsign_Some. Qed.

(** The theorem above at ["  ual 123 "]. *)
Lemma clean_callsign_shape_witness :
  clean_callsign (Some "  ual 123 ") = Some "UAL123"
  /\ (2 <= String.length "UAL123" <= 8)%nat
  /\ all_chars callsign_char "UAL123" = true.
Proof.
  split; [reflexivity|].
  apply (clean_callsign_shape (Some "  ual 123 ") "UAL123"). reflexivity.
Defined.

(** X4.  [clean_callsign] is idempotent: a callsign it returned is
    returned unchanged when cleaned again. *)
Theorem clean_callsign_idempotent x r :
  clean_callsign x = Some r -> clean_callsign (Some r) = Some r.
Proof.
  intros H. apply clean_callsign_Some in H as [Hlen Hall].
  destruct (callsign_chars_trimmed r Hall) as [Ht Hu].
  unfold clean_callsign.
  assert (Hr : str_truthy r = true) by (destruct r; [simpl in Hlen; lia|reflexivity]).
  rewrite Hr. simpl.
  rewrite (trimmed_strip r Ht), Hu, Hr. simpl.
  rewrite (keep_chars_all _ _ Hall).
  replace (String.length r <? 2)%nat with false
    by (symmetry; apply Nat.ltb_ge; lia).
  replace (8 <? String.length r)%nat with false
    by (symmetry; apply Nat.ltb_ge; lia).
  reflexivity.
Qed.

(** The theorem above at ["  ual 123 "]. *)
Lemma clean_callsign_idempotent_witness :
  clean_callsign (Some "UAL123") = Some "UAL123".
Proof.
  apply (clean_callsign_idempotent (Some "  ual 123 ") "UAL123").
  reflexivity.
Defined.

(** ** [parse_aircraft_type] *)

Lemma hex_digit_not_space c : is_hex_digit c = true -> isspace c = false.
Proof. each_char c. Qed.

Lemma hex_trimmed s : all_chars is_hex_digit s = true -> trimmed s.
Proof.
  intros H. split.
  - destruct s as [|c t]; [reflexivity|]. simpl in *.
    apply andb_prop in H as [Hc _]. now rewrite hex_digit_not_space.
  - induction s as [|c t IH]; [reflexivity|]. simpl in H.
    apply andb_prop in H as [Hc Ht].
    rewrite rstrip_cons by now apply hex_digit_not_space.
    now rewrite IH.
Qed.

Lemma validate_icao_hex s :
  String.length s = 6%nat -> all_chars is_hex_digit s = true ->
  validate_icao (Some s) = true.
Proof.
  intros Hlen Hhex.
  assert (Hu : validate_icao (Some (upper s)) = true).
  { apply validate_icao_upper_hex;
      [now rewrite length_upper | now apply all_hex_upper]. }
  unfold validate_icao in *.
  rewrite (trimmed_strip s) by now apply hex_trimmed.
  rewrite (trimmed_strip (upper s)), upper_idem in Hu
    by now apply trimmed_upper, hex_trimmed.
  destruct s as [|c t]; [discriminate|]. exact Hu.
Qed.

Lemma int_base16_two_hex c1 c2 :
  is_hex_digit c1 = true -> is_hex_digit c2 = true ->
  int_base16 (String c1 (String c2 EmptyString))
  = Some (16 * hex_value c1 + hex_value c2).
Proof.
  each_char c1; intros _; each_char c2; intros _; reflexivity.
Qed.

(** X5.  On an identifier of exactly six hexadecimal digits
    [parse_aircraft_type] never raises and never returns [None]: it returns
    the label of the first byte, the value of the first two digits. *)
Theorem parse_aircraft_type_hex c1 c2 rest :
  is_hex_digit c1 = true -> is_hex_digit c2 = true ->
  all_chars is_hex_digit rest = true -> String.length rest = 4%nat ->
  parse_aircraft_type (String c1 (String c2 rest))
  = Returns (Some (registration (16 * hex_value c1 + hex_value c2))).
Proof.
  intros H1 H2 Hr Hlen. unfold parse_aircraft_type.
  rewrite validate_icao_hex.
  - simpl. now rewrite int_base16_two_hex.
  - simpl. now rewrite Hlen.
  - simpl. now rewrite H1, H2, Hr.
Qed.

(** The theorem above at ["a4f2c1"]: the first byte is 0xA4. *)
Lemma parse_aircraft_type_hex_witness :
  parse_aircraft_type "a4f2c1" = Returns (Some "US Registered").
Proof.
  apply (parse_aircraft_type_hex "a" "4" "f2c1"); reflexivity.
Defined.

Lemma int_base16_prefixed x rest :
  x = "x"%char \/ x = "X"%char ->
  rest <> "" -> all_chars is_upper_hex_digit rest = true ->
  exists v, int_base16 (String "0" (String x rest)) = Some v.
Proof.
  intros Hx Hne Hhex. unfold int_base16.
  assert (Ht : trimmed (String "0" (String x rest))).
  { destruct (upper_hex_trimmed rest Hhex) as [_ Hr]. split.
    - reflexivity.
    - rewrite rstrip_cons by reflexivity.
      rewrite rstrip_cons by (destruct Hx as [-> | ->]; reflexivity).
      now rewrite Hr. }
  rewrite (trimmed_c_strip _ Ht).
  destruct rest as [|c t]; [congruence|].
  pose proof Hhex as H0. simpl in H0. apply andb_prop in H0 as [Hc _].
  destruct (upper_hex_scanned c Hc) as [Hu _].
  assert (Hp : skip_prefix16 (String "0" (String x (String c t)))
               = String c t).
  { unfold skip_prefix16. destruct Hx as [-> | ->]; simpl; now rewrite Hu. }
  cbn [skip_sign Ascii.eqb Bool.eqb]. simpl skip_sign. rewrite Hp, Hu.
  destruct (scan_upper_hex _ Hhex 0) as [v ->]. now exists v.
Qed.

(** X6.  An identifier made of the prefix [0x] or [0X] and four
    hexadecimal digits is accepted by [validate_icao], and on it
    [parse_aircraft_type] raises [ValueError]: the first two characters are
    not a number. *)
Theorem parse_aircraft_type_raises x rest :
  x = "x"%char \/ x = "X"%char ->
  all_chars is_hex_digit rest = true -> String.length rest = 4%nat ->
  validate_icao (Some (String "0" (String x rest))) = true
  /\ parse_aircraft_type (String "0" (String x rest)) = Raises.
Proof.
  intros Hx Hhex Hlen.
  assert (Hv : validate_icao (Some (String "0" (String x rest))) = true).
  { unfold validate_icao. cbn [str_truthy negb].
    assert (Ht : trimmed (String "0" (String x rest))).
    { destruct (hex_trimmed rest Hhex) as [_ Hr]. split.
      - reflexivity.
      - rewrite rstrip_cons by reflexivity.
        rewrite rstrip_cons by (destruct Hx as [-> | ->]; reflexivity).
        now rewrite Hr. }
    rewrite (trimmed_strip _ Ht).
    assert (Hu : upper (String "0" (String x rest))
                 = String "0" (String "X" (upper rest))).
    { destruct Hx as [-> | ->]; reflexivity. }
    rewrite Hu. simpl String.length. rewrite length_upper, Hlen. simpl.
    destruct (int_base16_prefixed "X" (upper rest)) as [v ->];
      [now right | | now apply all_hex_upper | reflexivity].
    intros E. apply (f_equal String.length) in E.
    rewrite length_upper, Hlen in E. discriminate. }
  split; [exact Hv|].
  unfold parse_aircraft_type. rewrite Hv.
  destruct Hx as [-> | ->]; reflexivity.
Qed.

(** The theorem above at ["0x1234"]. *)
Lemma parse_aircraft_type_raises_witness :
  validate_icao (Some "0x1234") = true
  /\ parse_aircraft_type "0x1234" = Raises.
Proof.
  apply (parse_aircraft_type_raises "x" "1234");
    [now left | reflexivity | reflexivity].
Defined.

(** ** [validate_coordinates] and [within_bounds] *)

(** X7.  [Aircraft.is_valid] is [validate_coordinates] on the position of
    the aircraft, and on a position whose two coordinates are valid and
    different from zero the bounds filter of [export_data] is
    [within_bounds]. *)
Theorem position_checks_agree :
  (forall a, is_valid a = validate_coordinates (latitude a) (longitude a))
  /\ (forall south west north east pos la lo,
         p_latitude pos = Some la -> p_longitude pos = Some lo ->
         validate_coordinates (Some la) (Some lo) = true ->
         num_truthy la = true -> num_truthy lo = true ->
         inside south west north east pos
         = within_bounds (Some la) (Some lo) north south east west).
Proof.
  split; [reflexivity|].
  intros south west north east pos la lo Hla Hlo Hv Hta Hto.
  unfold within_bounds. rewrite Hv. simpl.
  now apply inside_nonzero.
Qed.

(** The theorem above at the position (42, -75) and the bounds
    40, -80, 45, -70. *)
Lemma position_checks_agree_witness :
  inside (of_Z 40) (of_Z (-80)) (of_Z 45) (of_Z (-70))
         (position_dict (row_at 42 (-75) 5))
  = within_bounds (Some (of_Z 42)) (Some (of_Z (-75)))
                  (of_Z 45) (of_Z 40) (of_Z (-70)) (of_Z (-80)).
Proof.
  apply (proj2 position_checks_agree); reflexivity.
Defined.

(** ** [process_dump1090_json], continued *)

Lemma process_records_accepted now records :
  forall acc cache,
    process_records now records acc cache =
    ((acc ++ accepted now records)%list,
     foldl (fun c a => <[icao a := a]> c) cache (accepted now records)).
Proof.
  unfold accepted.
  induction records as [|ac records IH]; intros acc cache; simpl.
  - now rewrite app_nil_r.
  - destruct (process_record now ac) as [a|]; simpl.
    + rewrite IH. now rewrite <- app_assoc.
    + apply IH.
Qed.

Lemma process_dump1090_json_accepted now records cache :
  process_dump1090_json (Some records) now cache =
  (accepted now records,
   foldl (fun c a => <[icao a := a]> c) cache (accepted now records)).
Proof. unfold process_dump1090_json. now rewrite process_records_accepted. Qed.

Lemma upper_nonempty s : s <> "" -> upper s <> "".
Proof. destruct s; [congruence | discriminate]. Qed.

Lemma process_record_Some now ac a :
  process_record now ac = Some a ->
  is_valid a = true /\ timestamp a = Some now
  /\ upper (icao a) = icao a /\ icao a <> ""
  /\ exists h, hex ac = Some h /\ icao a = upper h.
Proof.
  unfold process_record. destruct (hex ac) as [h|]; [|discriminate].
  destruct (str_truthy h) eqn:Hh; simpl; [|discriminate].
  destruct (is_valid _) eqn:Hv; [|discriminate].
  intros [= <-]. split; [exact Hv|]. split; [reflexivity|]. simpl.
  split; [apply upper_idem|]. split.
  - apply upper_nonempty. intros ->. discriminate.
  - now exists h.
Qed.

Lemma length_accepted now records :
  (length (accepted now records) <= length records)%nat.
Proof.
  unfold accepted. induction records as [|ac records IH]; [simpl; lia|].
  change (omap (process_record now) (ac :: records))
    with (match process_record now ac with
          | Some a => a :: omap (process_record now) records
          | None => omap (process_record now) records
          end).
  destruct (process_record now ac); cbn [length]; lia.
Qed.

(** X8.  Every aircraft [process_dump1090_json] returns has a valid
    position, the time of the call as its timestamp and a non-empty
    identifier in upper case, which is the [hex] field of a record of the
    document; the method returns at most one aircraft per record. *)
Theorem dump1090_returns_valid_aircraft now records cache :
  (forall a,
      In a (process_dump1090_json (Some records) now cache).1 ->
      is_valid a = true /\ timestamp a = Some now
      /\ upper (icao a) = icao a /\ icao a <> ""
      /\ exists ac h, In ac records /\ hex ac = Some h /\ icao a = upper h)
  /\ (length (process_dump1090_json (Some records) now cache).1
      <= length records)%nat.
Proof.
  rewrite process_dump1090_json_accepted. simpl. split.
  - intros a Ha. unfold accepted in Ha.
    apply list_elem_of_In, list_elem_of_omap in Ha as (ac & Hac & Hp).
    apply process_record_Some in Hp as (Hv & Ht & Hu & Hne & h & Hh & Hi).
    repeat split; try assumption.
    exists ac, h. split; [now apply list_elem_of_In | now split].
  - apply length_accepted.
Qed.

(** The theorem above at a document of two records, for the aircraft of
    the second. *)
Lemma dump1090_returns_valid_aircraft_witness :
  exists a,
    In a (process_dump1090_json (Some [report_lat_95; report_valid]) 7 ∅).1
    /\ is_valid a = true /\ timestamp a = Some 7 /\ icao a = "DEF456".
Proof.
  destruct (dump1090_returns_valid_aircraft 7 [report_lat_95; report_valid] ∅)
    as [H _].
  eexists. split; [left; reflexivity|].
  edestruct H as (Hv & Ht & _); [left; reflexivity|].
  split; [exact Hv|]. split; [exact Ht | reflexivity].
Defined.

Lemma foldl_insert_lookup (l : list Aircraft) :
  forall (cache : gmap string Aircraft) k,
    foldl (fun c a => <[icao a := a]> c) cache l !! k =
    match last (filter (fun a => icao a = k) l) with
    | Some a => Some a
    | None => cache !! k
    end.
Proof.
  induction l as [|a l IH] using rev_ind; intros cache k; [reflexivity|].
  rewrite foldl_app, filter_app. simpl.
  destruct (decide (icao a = k)) as [<-|Hne].
  - rewrite (filter_cons_True (fun b => icao b = icao a)) by reflexivity.
    rewrite filter_nil, last_snoc. apply lookup_insert_eq.
  - rewrite (filter_cons_False (fun b => icao b = k)) by assumption.
    rewrite filter_nil, app_nil_r, lookup_insert_ne by assumption.
    apply IH.
Qed.

(** X9.  After [process_dump1090_json], the cache holds under each
    identifier the last aircraft of the returned list with that identifier
    (the last report wins), and its former entry when the list has none. *)
Theorem dump1090_cache_last_wins now records cache k :
  DecoderRest.get_aircraft_by_icao k
    (process_dump1090_json (Some records) now cache).2 =
  match last (filter (fun a => icao a = k)
                     (process_dump1090_json (Some records) now cache).1) with
  | Some a => Some a
  | None => DecoderRest.get_aircraft_by_icao k cache
  end.
Proof.
  rewrite process_dump1090_json_accepted. simpl.
  apply foldl_insert_lookup.
Qed.

Lemma accepted_not_old (m : Z) now later records a :
  later - now <= m * 1000000 ->
  In a (accepted now records) -> is_old (of_Z m) later a = false.
Proof.
  intros Hm Ha. unfold accepted in Ha.
  apply list_elem_of_In, list_elem_of_omap in Ha as (ac & _ & Hp).
  apply process_record_Some in Hp as (_ & Ht & _).
  destruct (is_old (of_Z m) later a) eqn:E; [|reflexivity].
  apply is_old_seconds in E as (ts & Hts & Hlt).
  rewrite Ht in Hts. injection Hts as <-. lia.
Qed.

(** X10.  After [process_dump1090_json] has returned an aircraft, the cache
    holds under its identifier an aircraft stamped with the time [now] of
    the decoding, and a [cleanup_old_aircraft] that reads the clock at a
    time [later] keeps that entry when [later] is at most the maximal age,
    in seconds, after [now]. *)
Theorem fresh_aircraft_survive_cleanup (m : Z) now later records cache a :
  In a (process_dump1090_json (Some records) now cache).1 ->
  let cache' := (process_dump1090_json (Some records) now cache).2 in
  exists b,
    cache' !! icao a = Some b
    /\ timestamp b = Some now
    /\ (later - now <= m * 1000000 ->
        (cleanup_old_aircraft (of_Z m) later cache').2 !! icao a = Some b).
Proof.
  intros Ha cache'. unfold cache'.
  rewrite process_dump1090_json_accepted in *. cbn [fst snd] in *.
  rewrite foldl_insert_lookup.
  destruct (last (filter (fun b => icao b = icao a) (accepted now records)))
    as [b|] eqn:E.
  - assert (Hb : In b (accepted now records)).
    { apply last_Some in E as [l' E].
      assert (Hb : b ∈ filter (fun b => icao b = icao a) (accepted now records))
        by (rewrite E; apply elem_of_app; right; left).
      apply list_elem_of_filter in Hb as [_ Hb]. now apply list_elem_of_In. }
    exists b. split; [reflexivity|]. split.
    + unfold accepted in Hb.
      apply list_elem_of_In, list_elem_of_omap in Hb as (ac & _ & Hp).
      now apply process_record_Some in Hp as (_ & Ht & _).
    + intros Hm. rewrite cleanup_is_filter.
      apply map_lookup_filter_Some. split.
      * rewrite foldl_insert_lookup. now rewrite E.
      * simpl. now apply (accepted_not_old m now later records b Hm).
  - exfalso. apply last_None in E.
    apply list_elem_of_In in Ha.
    now apply (filter_nil_not_elem_of _ _ a E).
Qed.

(** The theorem above for the aircraft of one valid record, decoded at time
    7 and cleaned 300 seconds later with the default maximal age. *)
Lemma fresh_aircraft_survive_cleanup_witness :
  let cache' := (process_dump1090_json (Some [report_valid]) 7 ∅).2 in
  exists b,
    cache' !! "DEF456" = Some b
    /\ timestamp b = Some 7
    /\ (cleanup_old_aircraft (of_Z 300) 300000007 cache').2 !! "DEF456"
       = Some b.
Proof.
  destruct (fresh_aircraft_survive_cleanup 300 7 300000007 [report_valid] ∅
              (default (seen_at 0) (process_record 7 report_valid)))
    as (b & Hb & Ht & Hkeep).
  - left. reflexivity.
  - exists b. split; [exact Hb|]. split; [exact Ht|]. apply Hkeep. lia.
Defined.

(** One microsecond after the decoding, a clean-up with the maximal age
    zero removes the aircraft. *)
Example cleanup_after_decoding :
  (cleanup_old_aircraft (of_Z 0) 8
     (process_dump1090_json (Some [report_valid]) 7 ∅).2).2 !! "DEF456"
  = None.
Proof. vm_compute. reflexivity. Qed.

(** ** [cleanup_old_aircraft], continued *)

(** X11.  [cleanup_old_aircraft] only removes entries, and a second
    clean-up at the same time with the same maximal age removes nothing
    more. *)
Theorem cleanup_old_aircraft_idempotent max_age now
    (cache : gmap string Aircraft) :
  (cleanup_old_aircraft max_age now cache).2 ⊆ cache
  /\ cleanup_old_aircraft max_age now
       (cleanup_old_aircraft max_age now cache).2
     = cleanup_old_aircraft max_age now cache.
Proof.
  split.
  - rewrite cleanup_is_filter. apply map_filter_subseteq.
  - rewrite (surjective_pairing (cleanup_old_aircraft max_age now
               (cleanup_old_aircraft max_age now cache).2)).
    rewrite (surjective_pairing (cleanup_old_aircraft max_age now cache)).
    f_equal. rewrite !cleanup_is_filter.
    apply map_filter_filter_l. intros i x _ H. exact H.
Qed.

(** ** [get_aircraft_positions], continued *)

Lemma Sorted_take {A} (R : A -> A -> Prop) l :
  Sorted R l -> forall n, Sorted R (take n l).
Proof.
  induction 1 as [|x l Hs IH Hhd]; intros [|n]; simpl; try constructor.
  - apply IH.
  - destruct Hhd as [|y l' Hxy]; destruct n; simpl; constructor. exact Hxy.
Qed.

Lemma In_take {A} (x : A) n l : In x (take n l) -> In x l.
Proof.
  revert n. induction l as [|y l IH]; intros [|n]; simpl; try tauto.
  intros [->|H]; [now left | right; eauto].
Qed.

Lemma matches_true icao start_time end_time pos :
  matches icao start_time end_time pos = true ->
  (forall i, icao = Some i -> i <> "" -> row_icao pos = i)
  /\ (forall t, start_time = Some t -> t <= row_timestamp pos)
  /\ (forall t, end_time = Some t -> row_timestamp pos <= t).
Proof.
  unfold matches. intros [[H1 H2]%andb_prop H3]%andb_prop.
  repeat split.
  - intros i -> Hi. destruct i; [congruence|]. simpl in H1.
    now apply String.eqb_eq in H1.
  - intros t ->. now apply Z.leb_le.
  - intros t ->. now apply Z.leb_le.
Qed.

Lemma get_aircraft_positions_rows icao start_time end_time limit db :
  exists rows,
    get_aircraft_positions icao start_time end_time limit db
    = map position_dict rows
    /\ (length rows <= limit)%nat
    /\ Sorted newer_or_equal rows
    /\ forall r, In r rows ->
         In r (aircraft_positions db)
         /\ matches icao start_time end_time r = true.
Proof.
  unfold get_aircraft_positions. destruct (available db).
  - eexists. split; [reflexivity|]. split; [|split].
    + rewrite length_take. lia.
    + apply Sorted_take, order_by_timestamp_desc_sorted.
    + intros r Hr. apply In_take in Hr.
      apply (proj1 (In_order_by_timestamp_desc _ _)) in Hr.
      now apply filter_In in Hr.
  - exists []. split; [reflexivity|]. split; [simpl; lia|].
    split; [constructor|]. intros r0 [].
Qed.

(** X12.  The result of [get_aircraft_positions] has at most [limit]
    entries, ordered from the newest to the oldest; each of them is a row of
    the table that passes the filters given: the identifier when it is not
    empty, and the two ends of the time range, both included.  It is empty
    on an unreachable store. *)
Theorem get_aircraft_positions_spec icao start_time end_time limit db :
  (exists rows,
      get_aircraft_positions icao start_time end_time limit db
      = map position_dict rows
      /\ (length rows <= limit)%nat
      /\ Sorted newer_or_equal rows
      /\ forall r, In r rows ->
           In r (aircraft_positions db)
           /\ (forall i, icao = Some i -> i <> "" -> row_icao r = i)
           /\ (forall t, start_time = Some t -> t <= row_timestamp r)
           /\ (forall t, end_time = Some t -> row_timestamp r <= t))
  /\ (available db = false ->
      get_aircraft_positions icao start_time end_time limit db = []).
Proof.
  split.
  - destruct (get_aircraft_positions_rows icao start_time end_time limit db)
      as (rows & E & Hlen & Hs & Hin).
    exists rows. repeat split; try assumption;
      destruct (Hin r H) as [Ht Hm]; try assumption;
      now apply matches_true in Hm.
  - intros Ha. unfold get_aircraft_positions. now rewrite Ha.
Qed.

(** The theorem above for the rows of one aircraft between 5 and 6, of a
    table that holds two, and for the same table out of reach. *)
Lemma get_aircraft_positions_spec_witness :
  (exists rows,
      get_aircraft_positions (Some "ABC123") (Some 5) (Some 6) 1
        (store_of [row_at 42 (-75) 5; row_at 50 (-75) 6])
      = map position_dict rows
      /\ (length rows <= 1)%nat
      /\ Sorted newer_or_equal rows)
  /\ get_aircraft_positions (Some "ABC123") (Some 5) (Some 6) 1
       (unreachable (store_of [row_at 42 (-75) 5; row_at 50 (-75) 6]))
     = [].
Proof.
  split.
  - destruct (proj1 (get_aircraft_positions_spec (Some "ABC123") (Some 5)
                       (Some 6) 1
                       (store_of [row_at 42 (-75) 5; row_at 50 (-75) 6])))
      as (rows & E & Hlen & Hs & _).
    exists rows. auto.
  - apply (proj2 (get_aircraft_positions_spec (Some "ABC123") (Some 5)
                    (Some 6) 1
                    (unreachable
                       (store_of [row_at 42 (-75) 5; row_at 50 (-75) 6])))).
    reflexivity.
Defined.

(** ** [store_aircraft_position] *)



(** ** [get_aircraft_by_icao] and [get_aircraft_history] of the application *)

Lemma newer_or_equal_trans : Relations_1.Transitive newer_or_equal.
Proof. intros x y z. unfold newer_or_equal. lia. Qed.

Lemma matches_icao i r :
  i <> "" -> matches (Some i) None None r = true <-> row_icao r = i.
Proof.
  intros Hi. unfold matches. destruct i; [congruence|]. simpl.
  rewrite !andb_true_r. apply String.eqb_eq.
Qed.

(** X14.  [FoilSkyBugs.get_aircraft_by_icao] answers from the decoder
    cache when the identifier is there.  Otherwise, for a non-empty
    identifier and a reachable store, it returns the stored position of that
    aircraft with the greatest timestamp, and [None] exactly when the store
    has no position of that aircraft. *)
Theorem get_aircraft_by_icao_spec icao self :
  (forall a, decoder self !! icao = Some a ->
             AppRest.get_aircraft_by_icao icao self = Some (to_dict a))
  /\ (decoder self !! icao = None -> icao <> "" ->
      available (database_ self) = true ->
      match AppRest.get_aircraft_by_icao icao self with
      | Some p =>
          exists r,
            In r (aircraft_positions (database_ self))
            /\ row_icao r = icao /\ p = position_dict r
            /\ forall r', In r' (aircraft_positions (database_ self)) ->
                          row_icao r' = icao ->
                          row_timestamp r' <= row_timestamp r
      | None =>
          forall r, In r (aircraft_positions (database_ self)) ->
                    row_icao r <> icao
      end).
Proof.
  unfold AppRest.get_aircraft_by_icao, DecoderRest.get_aircraft_by_icao.
  split; [intros a ->; reflexivity|].
  intros -> Hne Ha. unfold get_aircraft_positions. rewrite Ha.
  set (table := aircraft_positions (database_ self)).
  set (found := List.filter (matches (Some icao) None None) table).
  pose proof (order_by_timestamp_desc_sorted found) as Hs.
  pose proof (In_order_by_timestamp_desc found) as Hin.
  destruct (order_by_timestamp_desc found) as [|r rest]; simpl.
  - intros r Hr Hi.
    assert (In r found)
      by (apply filter_In; split; [exact Hr | now apply matches_icao]).
    now apply Hin in H.
  - assert (Hr : In r found) by (apply Hin; now left).
    apply filter_In in Hr as [Hrt Hrm]. apply matches_icao in Hrm; [|exact Hne].
    exists r. repeat split; try assumption; try reflexivity.
    intros r' Hr' Hi'.
    assert (Hf : In r' found)
      by (apply filter_In; split; [exact Hr' | now apply matches_icao]).
    apply Hin in Hf as [<-|Hf]; [lia|].
    apply Sorted_StronglySorted in Hs; [|exact newer_or_equal_trans].
    apply StronglySorted_inv in Hs as [_ Hall].
    rewrite List.Forall_forall in Hall. now apply Hall.
Qed.

(** The theorem above for an application whose cache is empty and whose
    store holds two positions of the aircraft. *)
Lemma get_aircraft_by_icao_spec_witness :
  let self := app_on (store_of [row_at 42 (-75) 5; row_at 50 (-75) 6]) in
  match AppRest.get_aircraft_by_icao "ABC123" self with
  | Some p =>
      exists r,
        In r (aircraft_positions (database_ self))
        /\ row_icao r = "ABC123" /\ p = position_dict r
        /\ forall r', In r' (aircraft_positions (database_ self)) ->
                      row_icao r' = "ABC123" ->
                      row_timestamp r' <= row_timestamp r
  | None =>
      forall r, In r (aircraft_positions (database_ self)) ->
                row_icao r <> "ABC123"
  end.
Proof.
  intros self.
  apply (proj2 (get_aircraft_by_icao_spec "ABC123" self)).
  - reflexivity.
  - discriminate.
  - reflexivity.
Defined.

(** X15.  [get_aircraft_history], asked for a non-empty identifier,
    returns at most 1000 positions, all of that aircraft, with a timestamp
    between [hours] hours before the call and the call, both ends
    included. *)
Theorem get_aircraft_history_spec icao hours now self :
  icao <> "" ->
  (length (get_aircraft_history icao hours now self) <= 1000)%nat
  /\ forall p, In p (get_aircraft_history icao hours now self) ->
       p_icao p = icao
       /\ exists t, p_timestamp p = Some (isoformat t)
                    /\ now - hours * hour <= t <= now.
Proof.
  intros Hne. unfold get_aircraft_history.
  destruct (get_aircraft_positions_rows (Some icao)
              (Some (now - hours * hour)) (Some now) (Z.to_nat 1000)
              (database_ self)) as (rows & -> & Hlen & _ & Hin).
  split.
  - rewrite length_map. revert Hlen. generalize (length rows). lia.
  - intros p Hp. apply in_map_iff in Hp as (r & <- & Hr).
    destruct (Hin r Hr) as [_ Hm].
    apply matches_true in Hm as (Hi & Hs & He).
    split; [now apply Hi|].
    exists (row_timestamp r). split; [reflexivity|].
    split; [now apply Hs | now apply He].
Qed.

(** The theorem above for the last hour before time [2 * hour], on a store
    of two positions. *)
Lemma get_aircraft_history_spec_witness :
  let now := 2 * hour in
  let self :=
    app_on (store_of [row_at 42 (-75) 5; row_at 50 (-75) (hour + 6)]) in
  (length (get_aircraft_history "ABC123" 1 now self) <= 1000)%nat
  /\ forall p, In p (get_aircraft_history "ABC123" 1 now self) ->
       p_icao p = "ABC123"
       /\ exists t, p_timestamp p = Some (isoformat t)
                    /\ now - 1 * hour <= t <= now.
Proof.
  intros now self.
  apply (get_aircraft_history_spec "ABC123" 1 now self). discriminate.
Defined.

(** ** [cleanup_old_data] *)

Lemma filter_filter_implied {A} (p q : A -> bool) l :
  (forall x, p x = true -> q x = true) ->
  List.filter p (List.filter q l) = List.filter p l.
Proof.
  intros H. induction l as [|x l IH]; [reflexivity|]. simpl.
  destruct (q x) eqn:Eq; simpl.
  - destruct (p x); now rewrite IH.
  - destruct (p x) eqn:Ep; [|exact IH].
    apply H in Ep. congruence.
Qed.

Lemma day_positive : 0 < day.
Proof. reflexivity. Qed.

Lemma minus_days_Some t n cutoff :
  minus_days t n = Some cutoff ->
  cutoff = t - n * day /\ Z.abs n <= 999999999
  /\ min_time <= cutoff <= max_time.
Proof.
  unfold minus_days.
  destruct (Z.abs n <=? 999999999) eqn:E1; [|discriminate].
  destruct (min_time <=? t - n * day) eqn:E2; [|discriminate].
  destruct (t - n * day <=? max_time) eqn:E3; [|discriminate].
  intros [= <-]. apply Z.leb_le in E1, E2, E3. auto.
Qed.

Lemma cleanup_old_data_done config now db positions_cutoff stats_cutoff :
  available db = true ->
  minus_days now (retention_positions config) = Some positions_cutoff ->
  minus_days now (retention_statistics config) = Some stats_cutoff ->
  cleanup_old_data config now db
  = (true,
     {| available := true;
        aircraft_positions :=
          List.filter (fun pos => negb (row_timestamp pos <? positions_cutoff))
                      (aircraft_positions db);
        statistics :=
          List.filter (fun s => negb (date s <? stats_cutoff))
                      (statistics db) |}).
Proof.
  intros Ha Hp Hs. unfold cleanup_old_data. now rewrite Hp, Hs, Ha.
Qed.

(** X16.  The two cut-offs of [cleanup_old_data] are the clock less each of
    the two retention periods; each is a [datetime] when the period is of at
    most 999999999 days and the result falls between the years 1 and 9999.
    When both are, on a reachable store, [cleanup_old_data] returns [True]
    and keeps exactly the positions that are not older than the retention
    period, so a query whose start time is not before the cut-off gives the
    same answer after the clean-up as before.  When one of them is not, and
    on an unreachable store, it returns [False] and changes nothing. *)
Theorem cleanup_old_data_positions config now db :
  (forall positions_cutoff stats_cutoff,
      available db = true ->
      minus_days now (retention_positions config) = Some positions_cutoff ->
      minus_days now (retention_statistics config) = Some stats_cutoff ->
      positions_cutoff = now - retention_positions config * day
      /\ (cleanup_old_data config now db).1 = true
      /\ (forall r,
             In r (aircraft_positions (cleanup_old_data config now db).2) <->
             In r (aircraft_positions db)
             /\ positions_cutoff <= row_timestamp r)
      /\ (forall icao start_time end_time limit,
             positions_cutoff <= start_time ->
             get_aircraft_positions icao (Some start_time) end_time limit
                                    (cleanup_old_data config now db).2
             = get_aircraft_positions icao (Some start_time) end_time limit
                                      db))
  /\ (available db = false
      \/ minus_days now (retention_positions config) = None
      \/ minus_days now (retention_statistics config) = None ->
      cleanup_old_data config now db = (false, db)).
Proof.
  split.
  - intros positions_cutoff stats_cutoff Ha Hp Hs.
    rewrite (cleanup_old_data_done _ _ _ _ _ Ha Hp Hs).
    cbn [fst snd aircraft_positions].
    split; [now apply minus_days_Some in Hp|]. split; [reflexivity|]. split.
    + intros r. rewrite filter_In, negb_true_iff, Z.ltb_ge. reflexivity.
    + intros icao start_time end_time limit Hst.
      unfold get_aircraft_positions. cbn [available aircraft_positions].
      rewrite Ha.
      rewrite filter_filter_implied; [reflexivity|].
      intros r Hm. apply matches_true in Hm as (_ & Hs' & _).
      specialize (Hs' start_time eq_refl).
      apply negb_true_iff, Z.ltb_ge. lia.
  - unfold cleanup_old_data. intros [H | [H | H]]; rewrite H.
    + now destruct (minus_days now (retention_positions config)),
        (minus_days now (retention_statistics config)).
    + reflexivity.
    + now destruct (minus_days now (retention_positions config)).
Qed.

(** The theorem above with the default retention of 30 days, 40 days after
    the first of two positions and 5 days after the second; and with a
    retention of a million days, which no [datetime] is before the epoch. *)
Lemma cleanup_old_data_positions_witness :
  let db := store_of [row_at 42 (-75) 0; row_at 50 (-75) (35 * day)] in
  ((cleanup_old_data default_config (40 * day) db).1 = true
   /\ aircraft_positions (cleanup_old_data default_config (40 * day) db).2
      = [row_at 50 (-75) (35 * day)])
  /\ cleanup_old_data
       {| retention_positions := 1000000; retention_statistics := 365 |}
       (40 * day) db
     = (false, db).
Proof.
  intros db. split.
  - destruct (proj1 (cleanup_old_data_positions default_config (40 * day) db)
                (10 * day) (- 325 * day) eq_refl eq_refl eq_refl)
      as (_ & Hr & _).
    split; [exact Hr | reflexivity].
  - apply (proj2 (cleanup_old_data_positions
                    {| retention_positions := 1000000;
                       retention_statistics := 365 |} (40 * day) db)).
    right. left. reflexivity.
Defined.

(** X17.  [cleanup_old_data] keeps the statistics that are not older than
    their retention period: [get_statistics] for a number of days that does
    not exceed that period gives the same answer after the clean-up as
    before. *)
Theorem cleanup_old_data_statistics config now db days :
  days <= retention_statistics config ->
  DatabaseRest.get_statistics days now (cleanup_old_data config now db).2
  = DatabaseRest.get_statistics days now db.
Proof.
  intros Hd. unfold DatabaseRest.get_statistics.
  destruct (minus_days now days) as [cutoff_date|] eqn:Ec; [|reflexivity].
  destruct (available db) eqn:Ha;
    destruct (minus_days now (retention_positions config))
      as [positions_cutoff|] eqn:Ep;
    destruct (minus_days now (retention_statistics config))
      as [stats_cutoff|] eqn:Es;
    try (unfold cleanup_old_data; rewrite ?Ep, ?Es, ?Ha; cbn [snd];
         rewrite ?Ha; reflexivity).
  rewrite (cleanup_old_data_done _ _ _ _ _ Ha Ep Es).
  cbn [snd available statistics].
  rewrite filter_filter_implied; [reflexivity|].
  intros s Hs. apply Z.leb_le in Hs.
  apply minus_days_Some in Ec as (-> & _), Es as (-> & _).
  apply negb_true_iff, Z.ltb_ge.
  pose proof day_positive. nia.
Qed.

(** The theorem above for the statistics of the last 7 days and the default
    retention. *)
Lemma cleanup_old_data_statistics_witness :
  DatabaseRest.get_statistics 7 (40 * day)
    (cleanup_old_data default_config (40 * day)
       (update_statistics (40 * day)
          (store_of [row_at 42 (-75) (40 * day)])).2).2
  = DatabaseRest.get_statistics 7 (40 * day)
      (update_statistics (40 * day) (store_of [row_at 42 (-75) (40 * day)])).2.
Proof.
  apply cleanup_old_data_statistics. vm_compute. discriminate.
Defined.

(** ** [update_statistics], continued *)

Lemma size_list_to_set_le (l : list string) :
  (size (list_to_set l : gset string) <= length l)%nat.
Proof.
  induction l as [|x l IH].
  - rewrite list_to_set_nil, size_empty. simpl. lia.
  - rewrite list_to_set_cons, size_union_alt, size_singleton, length_cons.
    assert (Hs : list_to_set l ∖ {[x]} ⊆ (list_to_set l : gset string))
      by (intros y [Hy _]%elem_of_difference; exact Hy).
    apply subseteq_size in Hs. lia.
Qed.

Lemma size_list_to_set_pos (x : string) (l : list string) :
  (1 <= size (list_to_set (x :: l) : gset string))%nat.
Proof.
  rewrite list_to_set_cons, size_union_alt, size_singleton. lia.
Qed.

Lemma length_omap_filter {A B} (f : A -> option B) (p : A -> bool) l :
  (length (omap f (List.filter p l)) <= length l)%nat.
Proof.
  induction l as [|x l IH]; [simpl; lia|].
  simpl List.filter. destruct (p x); [|simpl; lia].
  change (omap f (x :: List.filter p l))
    with (match f x with
          | Some y => y :: omap f (List.filter p l)
          | None => omap f (List.filter p l)
          end).
  destruct (f x); simpl; lia.
Qed.

Lemma In_altitudes l z :
  In z (omap row_altitude
          (List.filter (fun pos => altitude_truthy (row_altitude pos)) l))
  <-> exists r, In r l /\ row_altitude r = Some z /\ z <> 0.
Proof.
  rewrite <- list_elem_of_In, list_elem_of_omap. split.
  - intros (r & Hr & Hz). apply list_elem_of_In, filter_In in Hr as [Hr Ht].
    exists r. repeat split; try assumption.
    rewrite Hz in Ht. simpl in Ht. apply negb_true_iff, Z.eqb_neq in Ht.
    exact Ht.
  - intros (r & Hr & Hz & Hne). exists r. split; [|exact Hz].
    apply list_elem_of_In, filter_In. split; [exact Hr|].
    rewrite Hz. simpl. now apply negb_true_iff, Z.eqb_neq.
Qed.

Lemma max_list_spec others :
  forall first,
    (max_list first others = first \/ In (max_list first others) others)
    /\ first <= max_list first others
    /\ forall z, In z others -> z <= max_list first others.
Proof.
  unfold max_list.
  induction others as [|x l IH]; intros first; simpl.
  - repeat split; [now left | lia | tauto].
  - destruct (IH (Z.max first x)) as (Hin & Hge & Hall).
    repeat split.
    + destruct Hin as [E|Hin]; [|now right; right].
      destruct (Z.max_spec first x) as [[_ Em]|[_ Em]];
        rewrite Em in E; [right; left | left]; congruence.
    + lia.
    + intros z [<-|Hz]; [lia | now apply Hall].
Qed.

(** X18.  The row that [update_statistics] writes for a day with positions
    is dated at midnight, counts all the positions of the day, at least one
    and at most that many aircraft, and at most that many callsigns.  Its
    maximal altitude is the altitude of a position of the day and is not
    below any altitude of the day other than zero; it is absent exactly when
    no position of the day has an altitude other than zero, and so is the
    average. *)
Theorem update_statistics_aggregates now db :
  available db = true ->
  positions_of_day now db <> [] ->
  exists s,
    statistics_of_day now (update_statistics now db).2 = [s]
    /\ date s = start_of_day now
    /\ total_positions s = length (positions_of_day now db)
    /\ (1 <= total_aircraft s <= total_positions s)%nat
    /\ (unique_callsigns s <= total_positions s)%nat
    /\ (forall m, max_altitude s = Some m ->
          (exists r, In r (positions_of_day now db)
                     /\ row_altitude r = Some m)
          /\ (forall r z, In r (positions_of_day now db) ->
                          row_altitude r = Some z -> z <> 0 -> z <= m))
    /\ (max_altitude s = None <->
        forall r z, In r (positions_of_day now db) ->
                    row_altitude r = Some z -> z = 0)
    /\ (avg_altitude s = None <-> max_altitude s = None).
Proof.
  intros Ha Hne.
  exists (compute_statistics now (start_of_day now) (positions_of_day now db)).
  split; [now apply statistics_of_day_updated|].
  set (l := positions_of_day now db) in *.
  unfold compute_statistics. cbn [date total_positions total_aircraft
    unique_callsigns max_altitude avg_altitude].
  split; [reflexivity|]. split; [reflexivity|].
  split; [split|].
  - destruct l as [|r l']; [congruence|]. apply size_list_to_set_pos.
  - rewrite <- (length_map row_icao l). apply size_list_to_set_le.
  - split.
    + etransitivity; [apply size_list_to_set_le|]. apply length_omap_filter.
    + pose proof (In_altitudes l) as Hin.
      destruct (omap row_altitude
                  (List.filter (fun pos => altitude_truthy (row_altitude pos))
                               l)) as [|a rest] eqn:E.
      * split; [intros m [=]|]. split; [|tauto].
        split; [|reflexivity]. intros _ r z Hr Hz.
        destruct (Z.eq_dec z 0) as [->|Hz0]; [reflexivity|].
        exfalso. apply (proj2 (Hin z)). exists r. auto.
      * destruct (max_list_spec rest a) as (Hmem & Hge & Hall).
        split; [|split; split; try discriminate].
        -- intros m [= <-]. split.
           ++ assert (Hm : In (max_list a rest) (a :: rest)).
              { destruct Hmem as [->|Hm]; [now left | now right]. }
              apply Hin in Hm as (r & Hr & Hz & _). eauto.
           ++ intros r z Hr Hz Hz0.
              assert (Hz' : In z (a :: rest)) by (apply Hin; eauto).
              destruct Hz' as [<-|Hz']; [exact Hge | now apply Hall].
        -- intros Hzero. exfalso.
           assert (Hm : In a (a :: rest)) by now left.
           apply Hin in Hm as (r & Hr & Hz & Hz0). eauto.
Qed.

(** The theorem above on a day with two positions of one aircraft. *)
Lemma update_statistics_aggregates_witness :
  exists s,
    statistics_of_day 10
      (update_statistics 10
         (store_of [row_at 42 (-75) 5; row_at 50 (-75) 6])).2 = [s]
    /\ total_positions s = 2%nat /\ total_aircraft s = 1%nat
    /\ max_altitude s = Some 35000.
Proof.
  destruct (update_statistics_aggregates 10
              (store_of [row_at 42 (-75) 5; row_at 50 (-75) 6]))
    as (s & E & _); [reflexivity | discriminate |].
  exists s. split; [exact E|].
  vm_compute in E. injection E as <-. repeat split.
Defined.

(** The average is the quotient rounded to a [float]: of the altitudes 1, 1
    and 2 it is the [float] nearest to 4/3, and of the single altitude
    2 ^ 53 + 3 it is 2 ^ 53 + 4, above the maximum. *)
Example average_is_rounded :
  avg_altitude
    (compute_statistics 10 0
       [with_row_altitude 1; with_row_altitude 1; with_row_altitude 2])
  = Some (Fin (6004799503160661 # 4503599627370496))
  /\ avg_altitude (compute_statistics 10 0 [with_row_altitude (2 ^ 53 + 3)])
     = Some (of_Z (2 ^ 53 + 4)).
Proof. vm_compute. split; reflexivity. Qed.

(** X19.  [update_statistics] fails only when the store is out of reach.
    It never touches the position rows, nor the rows of [statistics] of any
    other day than the day of the call. *)
Theorem update_statistics_frame now db :
  (update_statistics now db).1 = available db
  /\ available (update_statistics now db).2 = available db
  /\ aircraft_positions (update_statistics now db).2 = aircraft_positions db
  /\ List.filter
       (fun s => negb (in_window (start_of_day now) (start_of_day now + day)
                                 (date s)))
       (statistics (update_statistics now db).2)
     = List.filter
         (fun s => negb (in_window (start_of_day now) (start_of_day now + day)
                                   (date s)))
         (statistics db).
Proof.
  destruct (available db) eqn:Ha.
  - destruct (positions_of_day now db) as [|r l] eqn:E.
    + rewrite update_statistics_empty, Ha by assumption. auto.
    + rewrite update_statistics_nonempty by (rewrite ?E; easy).
      cbn [fst snd set_statistics available aircraft_positions statistics].
      repeat split; try assumption.
      rewrite List.filter_app, filter_idem. simpl.
      rewrite start_of_day_in_window. simpl. apply app_nil_r.
  - unfold update_statistics. rewrite Ha. simpl. auto.
Qed.

(** ** [get_statistics] *)

Lemma In_insert_stat_desc s rows y :
  In y (insert_stat_desc s rows) <-> y = s \/ In y rows.
Proof.
  induction rows as [|s' rows IH]; simpl.
  - intuition.
  - destruct (date s' <=? date s); simpl.
    + intuition.
    + rewrite IH. intuition.
Qed.

Lemma In_order_by_date_desc rows y :
  In y (order_by_date_desc rows) <-> In y rows.
Proof.
  induction rows as [|s rows IH]; simpl; [reflexivity|].
  rewrite In_insert_stat_desc, IH. intuition.
Qed.

Lemma insert_stat_desc_sorted s rows :
  Sorted later_or_equal rows -> Sorted later_or_equal (insert_stat_desc s rows).
Proof.
  induction rows as [|s' rows IH]; simpl; intros Hs.
  - repeat constructor.
  - destruct (date s' <=? date s) eqn:E.
    + constructor; [exact Hs|]. constructor. now apply Z.leb_le in E.
    + apply Z.leb_gt in E. inversion Hs as [|? ? Hs' Hhd]; subst.
      constructor; [now apply IH|].
      destruct rows as [|s'' rows]; simpl.
      * constructor. unfold later_or_equal. lia.
      * destruct (date s'' <=? date s).
        -- constructor. unfold later_or_equal. lia.
        -- constructor. now inversion Hhd.
Qed.

Lemma order_by_date_desc_sorted rows :
  Sorted later_or_equal (order_by_date_desc rows).
Proof.
  induction rows as [|s rows IH]; simpl; [constructor|].
  now apply insert_stat_desc_sorted.
Qed.

(** X20.  The cut-off of [get_statistics] is the clock less [days] days,
    a [datetime] when [days] is at most 999999999 and the result falls
    between the years 1 and 9999.  [get_statistics] then returns the rows of
    [statistics] dated at or after the cut-off, each of them once per row of
    the table, from the newest date to the oldest.  It returns nothing when
    the cut-off is not a [datetime], and when the store is out of reach. *)
Theorem get_statistics_spec days now db :
  (available db = false \/ minus_days now days = None ->
   DatabaseRest.get_statistics days now db = [])
  /\ (forall cutoff_date,
        minus_days now days = Some cutoff_date ->
        cutoff_date = now - days * day
        /\ exists rows,
             DatabaseRest.get_statistics days now db
             = map statistics_row_dict rows
             /\ Sorted later_or_equal rows
             /\ (forall s, In s rows -> cutoff_date <= date s)
             /\ (available db = true ->
                 rows ≡ₚ List.filter (fun s => cutoff_date <=? date s)
                                     (statistics db))).
Proof.
  unfold DatabaseRest.get_statistics. split.
  - intros [H | H]; rewrite H; [|reflexivity].
    now destruct (minus_days now days).
  - intros cutoff_date Hc. rewrite Hc.
    split; [now apply minus_days_Some in Hc|].
    destruct (available db).
    + eexists. split; [reflexivity|].
      split; [apply order_by_date_desc_sorted|]. split.
      * intros s Hs. apply In_order_by_date_desc, filter_In in Hs as [_ Hs].
        now apply Z.leb_le.
      * intros _.
        generalize (List.filter (fun s => cutoff_date <=? date s)
                                (statistics db)).
        intros l. induction l as [|s l IH]; simpl; [reflexivity|].
        rewrite <- IH at 2. clear IH.
        generalize (order_by_date_desc l). intros rows.
        induction rows as [|s' rows IH]; simpl; [reflexivity|].
        destruct (date s' <=? date s); [reflexivity|].
        rewrite IH. apply Permutation_swap.
    + exists []. repeat split; [constructor | intros s [] | discriminate].
Qed.

(** The theorem above for the statistics of the last 7 days, on a store
    with a row of statistics dated 40 days after the epoch and one dated 20
    days after it; and for the statistics of the last million days. *)
Lemma get_statistics_spec_witness :
  let db := {| available := true; aircraft_positions := [];
               statistics := [statistics_at (20 * day);
                              statistics_at (40 * day)] |} in
  (exists rows,
      DatabaseRest.get_statistics 7 (40 * day + 5) db
      = map statistics_row_dict rows
      /\ rows ≡ₚ [statistics_at (40 * day)])
  /\ DatabaseRest.get_statistics 1000000 (40 * day + 5) db = [].
Proof.
  intros db. split.
  - destruct (proj2 (get_statistics_spec 7 (40 * day + 5) db)
                (33 * day + 5) eq_refl)
      as (_ & rows & E & _ & _ & Hp).
    exists rows. split; [exact E|]. exact (Hp eq_refl).
  - apply (proj1 (get_statistics_spec 1000000 (40 * day + 5) db)).
    right. reflexivity.
Defined.

Lemma start_of_day_bounds now :
  start_of_day now <= now < start_of_day now + day.
Proof.
  unfold start_of_day. pose proof day_positive.
  pose proof (Z.div_mod now day). pose proof (Z.mod_pos_bound now day).
  lia.
Qed.

(** X21.  After [update_statistics] has run on a day with positions,
    [get_statistics] for one day or more, asked at the same time and with a
    cut-off that is a [datetime], returns exactly one entry dated at the
    midnight of that day, and that entry counts the positions of the day. *)
Theorem get_statistics_after_update days now db cutoff_date :
  available db = true ->
  positions_of_day now db <> [] ->
  1 <= days ->
  minus_days now days = Some cutoff_date ->
  exists d,
    In d (DatabaseRest.get_statistics days now (update_statistics now db).2)
    /\ d_date d = Some (isoformat (start_of_day now))
    /\ d_total_positions d = length (positions_of_day now db)
    /\ forall d',
         In d' (DatabaseRest.get_statistics days now
                  (update_statistics now db).2) ->
         d_date d' = d_date d -> d' = d.
Proof.
  intros Ha Hne Hd Hc.
  pose proof (statistics_of_day_updated now db Ha Hne) as Hday.
  set (s := compute_statistics now (start_of_day now)
                               (positions_of_day now db)) in *.
  set (db' := (update_statistics now db).2) in *.
  assert (Ha' : available db' = true).
  { unfold db'. now rewrite update_statistics_nonempty. }
  assert (Hs : In s (statistics db')
               /\ forall s', In s' (statistics db') ->
                             date s' = start_of_day now -> s' = s).
  { unfold statistics_of_day in Hday. split.
    - assert (H : In s (List.filter
                 (fun s0 => in_window (start_of_day now)
                              (start_of_day now + day) (date s0))
                 (statistics db'))) by (rewrite Hday; now left).
      now apply filter_In in H.
    - intros s' Hs' Hdate.
      assert (H : In s' (List.filter
                 (fun s0 => in_window (start_of_day now)
                              (start_of_day now + day) (date s0))
                 (statistics db'))).
      { apply filter_In. split; [exact Hs'|].
        rewrite Hdate. apply start_of_day_in_window. }
      rewrite Hday in H. destruct H as [<-|[]]. reflexivity. }
  destruct Hs as [Hin Huniq].
  pose proof (start_of_day_bounds now) as Hb. pose proof day_positive.
  unfold DatabaseRest.get_statistics. rewrite Hc, Ha'.
  apply minus_days_Some in Hc as (-> & _).
  exists (statistics_row_dict s). split; [|split; [reflexivity|split]].
  - apply in_map, In_order_by_date_desc, filter_In. split; [exact Hin|].
    apply Z.leb_le. change (date s) with (start_of_day now). nia.
  - reflexivity.
  - intros d' Hd' Hdate.
    apply in_map_iff in Hd' as (s' & <- & Hs').
    apply In_order_by_date_desc, filter_In in Hs' as [Hs' _].
    f_equal. apply Huniq; [exact Hs'|].
    simpl in Hdate. now injection Hdate.
Qed.

(** The theorem above on a day with one position, for the statistics of
    the last day. *)
Lemma get_statistics_after_update_witness :
  exists d,
    In d (DatabaseRest.get_statistics 1 10
            (update_statistics 10 (store_of [row_at 42 (-75) 5])).2)
    /\ d_date d = Some (isoformat (start_of_day 10))
    /\ d_total_positions d = 1%nat.
Proof.
  destruct (get_statistics_after_update 1 10 (store_of [row_at 42 (-75) 5])
              (10 - day))
    as (d & Hin & Hdate & Htot & _);
    [reflexivity | discriminate | lia | reflexivity |].
  exists d. auto.
Defined.

(** X22.  [get_flights] returns at most 5000 positions, each with a
    timestamp between the two times given, both included, from the newest
    to the oldest. *)
Theorem get_flights_spec start_time end_time self :
  exists rows,
    get_flights start_time end_time self = map position_dict rows
    /\ (length rows <= 5000)%nat
    /\ Sorted newer_or_equal rows
    /\ forall r, In r rows ->
         In r (aircraft_positions (database_ self))
         /\ start_time <= row_timestamp r <= end_time.
Proof.
  unfold get_flights.
  destruct (get_aircraft_positions_rows None (Some start_time)
              (Some end_time) (Z.to_nat 5000) (database_ self))
    as (rows & E & Hlen & Hs & Hin).
  exists rows. split; [exact E|]. split.
  - revert Hlen. generalize (length rows). lia.
  - split; [exact Hs|]. intros r Hr. destruct (Hin r Hr) as [Ht Hm].
    apply matches_true in Hm as (_ & H1 & H2).
    split; [exact Ht|]. split; [now apply H1 | now apply H2].
Qed.

(** ** [export_data], continued *)

Lemma feature_of_Some p f :
  feature_of p = Some f ->
  properties f = properties_of p
  /\ exists la lo,
       p_latitude p = Some la /\ p_longitude p = Some lo
       /\ coordinates f = (lo, la)
       /\ num_truthy la = true /\ num_truthy lo = true.
Proof.
  unfold feature_of.
  destruct (p_latitude p) as [la|]; [|discriminate].
  destruct (p_longitude p) as [lo|]; [|discriminate].
  destruct (num_truthy la && num_truthy lo) eqn:Et; [|discriminate].
  apply andb_prop in Et as [Hta Hto]. intros [= <-].
  split; [reflexivity|]. exists la, lo. auto.
Qed.

Lemma In_features positions f :
  In f (omap feature_of positions) <->
  exists p, In p positions /\ feature_of p = Some f.
Proof.
  rewrite <- list_elem_of_In, list_elem_of_omap.
  split; intros (p & Hp & Hf); exists p; split; try assumption;
    now apply list_elem_of_In.
Qed.

Lemma inside_in_box south west north east p :
  inside south west north east p = true -> in_box south west north east p.
Proof.
  unfold inside, in_box.
  destruct (p_latitude p) as [la|]; [|discriminate].
  destruct (p_longitude p) as [lo|]; [|discriminate].
  intros [[_ H1]%andb_prop H2]%andb_prop. exists la, lo. auto.
Qed.

Lemma export_data_with_float format start_time end_time output_file bounds
      writable now self :
  export_data_with float_of_string format start_time end_time output_file
                   bounds writable now self
  = export_data format start_time end_time output_file bounds writable now
                self.
Proof. reflexivity. Qed.

Lemma apply_bounds_four float b s0 w0 n0 e0 south west north east positions :
  split "," b = [s0; w0; n0; e0] ->
  float s0 = Some south -> float w0 = Some west ->
  float n0 = Some north -> float e0 = Some east ->
  apply_bounds_with float (Some b) positions
  = Some (List.filter (inside south west north east) positions).
Proof.
  intros Hsp Hs Hw Hn He. unfold apply_bounds_with.
  destruct b as [|c b']; [discriminate|]. cbn [str_truthy negb].
  now rewrite Hsp, Hs, Hw, Hn, He.
Qed.

Lemma export_data_entries float format start_time end_time output_file bounds
      writable now self name doc :
  export_data_with float format start_time end_time output_file bounds
                   writable now self
  = (true, Some (name, doc)) ->
  exists positions,
    apply_bounds_with float bounds
      (get_aircraft_positions None start_time end_time (Z.to_nat 10000)
                              (database_ self)) = Some positions
    /\ all_entries (fun p => In p positions) doc.
Proof.
  unfold export_data_with.
  destruct (get_aircraft_positions _ _ _ _ _) as [|p0 ps]; [discriminate|].
  destruct (apply_bounds_with float bounds (p0 :: ps)) as [positions|];
    [|discriminate].
  intros H. exists positions. split; [reflexivity|].
  destruct (String.eqb (lower format) "json").
  { unfold _export_json in H. destruct writable; [|discriminate].
    injection H as _ <-. simpl. auto. }
  destruct (String.eqb (lower format) "csv").
  { unfold _export_csv in H. destruct positions; [discriminate|].
    destruct writable; [|discriminate]. injection H as _ <-. simpl. auto. }
  destruct (String.eqb (lower format) "geojson"); [|discriminate].
  unfold _export_geojson in H. destruct writable; [|discriminate].
  injection H as _ <-. simpl. intros f Hf.
  apply In_features in Hf as (p & Hp & Hf). eauto.
Qed.

(** X23.  Whatever Python's [float] makes of the fields of the bounds: when
    the bounds string has four fields and [float] returns a number for each,
    every entry of the file that [export_data] writes, in any of the three
    formats, is a position that the query returned, or in GeoJSON the
    feature of such a position, with a latitude between south and north and
    a longitude between west and east: no position outside the bounds is
    exported. *)
Theorem export_data_within_bounds float format start_time end_time output_file
        b writable now self s0 w0 n0 e0 south west north east name doc :
  split "," b = [s0; w0; n0; e0] ->
  float s0 = Some south -> float w0 = Some west ->
  float n0 = Some north -> float e0 = Some east ->
  export_data_with float format start_time end_time output_file (Some b)
                   writable now self = (true, Some (name, doc)) ->
  all_entries
    (fun p =>
       in_box south west north east p
       /\ In p (get_aircraft_positions None start_time end_time
                                       (Z.to_nat 10000) (database_ self)))
    doc.
Proof.
  intros Hsp Hs Hw Hn He Hex.
  apply export_data_entries in Hex as (positions & Hb & Hin).
  rewrite (apply_bounds_four float b s0 w0 n0 e0 south west north east) in Hb
    by assumption.
  injection Hb as <-.
  assert (Hbox : forall p,
             In p (List.filter (inside south west north east)
                     (get_aircraft_positions None start_time end_time
                        (Z.to_nat 10000) (database_ self))) ->
             in_box south west north east p
             /\ In p (get_aircraft_positions None start_time end_time
                         (Z.to_nat 10000) (database_ self))).
  { intros p [Hq Hi]%filter_In. split; [now apply inside_in_box | exact Hq]. }
  destruct doc as [t n positions|rows|features]; simpl in *.
  - intros p Hp. now apply Hbox, Hin.
  - intros p Hp. now apply Hbox, Hin.
  - intros f Hf. destruct (Hin f Hf) as (p & E & Hp). eauto.
Qed.

(** The theorem above for the GeoJSON export of the positions (42, -75)
    and (50, -75) with the bounds ["40,-80,45,-70"]: the one feature is the
    feature of a position within the bounds. *)
Lemma export_data_within_bounds_witness :
  let self := app_on (store_of [row_at 42 (-75) 5; row_at 50 (-75) 6]) in
  let f := {| coordinates := (of_Z (-75), of_Z 42);
              properties := properties_of (position_dict (row_at 42 (-75) 5))
           |} in
  export_data "geojson" None None (Some "out.geojson") (Some "40,-80,45,-70")
              true 9 self
  = (true, Some (Given "out.geojson", GeoJsonDocument [f]))
  /\ exists p,
       feature_of p = Some f
       /\ in_box (of_Z 40) (of_Z (-80)) (of_Z 45) (of_Z (-70)) p
       /\ In p (get_aircraft_positions None None None (Z.to_nat 10000)
                                       (database_ self)).
Proof.
  intros self f. split; [reflexivity|].
  apply (export_data_within_bounds float_of_string "geojson" None None
           (Some "out.geojson") "40,-80,45,-70" true 9 self
           "40" "-80" "45" "-70" (of_Z 40) (of_Z (-80)) (of_Z 45) (of_Z (-70))
           (Given "out.geojson") (GeoJsonDocument [f]));
    try reflexivity.
  left. reflexivity.
Defined.

(** X24.  [export_data] returns [True] exactly when it has written a
    file, and the file is then the one asked for, or a generated name with
    the format, in lower case, as its extension. *)
Theorem export_data_result format start_time end_time output_file bounds
        writable now self :
  match export_data format start_time end_time output_file bounds writable
                    now self with
  | (true, Some (name, _)) =>
      name = choose_name output_file now (lower format)
  | (false, None) => True
  | _ => False
  end.
Proof.
  unfold export_data.
  destruct (get_aircraft_positions _ _ _ _ _) as [|p0 ps]; [exact I|].
  destruct (apply_bounds bounds (p0 :: ps)) as [positions|]; [|exact I].
  destruct (String.eqb (lower format) "json") eqn:Ej.
  { apply String.eqb_eq in Ej as ->. unfold _export_json.
    now destruct writable. }
  destruct (String.eqb (lower format) "csv") eqn:Ec.
  { apply String.eqb_eq in Ec as ->. unfold _export_csv.
    destruct positions; [exact I|]. now destruct writable. }
  destruct (String.eqb (lower format) "geojson") eqn:Eg; [|exact I].
  apply String.eqb_eq in Eg as ->. unfold _export_geojson.
  now destruct writable.
Qed.

(** X25.  Whatever Python's [float] makes of the fields of the bounds:
    when the query returns positions, the bounds string has four fields,
    [float] returns a number for each and the filter of the bounds lets none
    of the positions through, the three formats differ: the JSON export
    succeeds with a document of no position, the GeoJSON export succeeds
    with no feature, and the CSV export fails and writes nothing. *)
Theorem export_data_nothing_in_bounds float start_time end_time output_file b
        now self s0 w0 n0 e0 south west north east :
  get_aircraft_positions None start_time end_time (Z.to_nat 10000)
                         (database_ self) <> [] ->
  split "," b = [s0; w0; n0; e0] ->
  float s0 = Some south -> float w0 = Some west ->
  float n0 = Some north -> float e0 = Some east ->
  (forall p,
      In p (get_aircraft_positions None start_time end_time (Z.to_nat 10000)
                                   (database_ self)) ->
      inside south west north east p = false) ->
  export_data_with float "json" start_time end_time output_file (Some b) true
                   now self
  = (true, Some (choose_name output_file now "json",
                 JsonDocument (isoformat now) 0 []))
  /\ export_data_with float "geojson" start_time end_time output_file (Some b)
                      true now self
     = (true, Some (choose_name output_file now "geojson",
                    GeoJsonDocument []))
  /\ export_data_with float "csv" start_time end_time output_file (Some b)
                      true now self
     = (false, None).
Proof.
  intros Hne Hsp Hs Hw Hn He Hout. unfold export_data_with.
  rewrite (apply_bounds_four float b s0 w0 n0 e0 south west north east)
    by assumption.
  assert (E : List.filter (inside south west north east)
                (get_aircraft_positions None start_time end_time
                   (Z.to_nat 10000) (database_ self)) = []).
  { revert Hout.
    generalize (get_aircraft_positions None start_time end_time
                  (Z.to_nat 10000) (database_ self)).
    intros l Hout. induction l as [|p l IH]; [reflexivity|]. simpl.
    rewrite (Hout p) by now left. apply IH. intros q Hq. apply Hout.
    now right. }
  rewrite E.
  destruct (get_aircraft_positions _ _ _ _ _) as [|p0 ps]; [congruence|].
  repeat split.
Qed.

(** The theorem above for a store whose only position, (50, -75), is
    outside the bounds ["40,-80,45,-70"]. *)
Lemma export_data_nothing_in_bounds_witness :
  export_data "json" None None (Some "out") (Some "40,-80,45,-70") true 9
    (app_on (store_of [row_at 50 (-75) 6]))
  = (true, Some (Given "out", JsonDocument (isoformat 9) 0 []))
  /\ export_data "geojson" None None (Some "out") (Some "40,-80,45,-70") true
       9 (app_on (store_of [row_at 50 (-75) 6]))
     = (true, Some (Given "out", GeoJsonDocument []))
  /\ export_data "csv" None None (Some "out") (Some "40,-80,45,-70") true 9
       (app_on (store_of [row_at 50 (-75) 6]))
     = (false, None).
Proof.
  apply (export_data_nothing_in_bounds float_of_string None None (Some "out")
           "40,-80,45,-70" 9 (app_on (store_of [row_at 50 (-75) 6]))
           "40" "-80" "45" "-70" (of_Z 40) (of_Z (-80)) (of_Z 45)
           (of_Z (-70))); try reflexivity.
  - discriminate.
  - intros p [<-|[]]. reflexivity.
Defined.

(** X26.  Every feature of a GeoJSON export is made from one of the
    positions given: its properties are the identifier, callsign, altitude,
    speed, heading, squawk and timestamp of that position, and its
    coordinates the position's longitude and latitude, in this order, both
    different from zero.  Every position given whose latitude and longitude
    are different from zero has its feature in the export, and there are no
    more features than positions. *)
Theorem export_geojson_features now positions output_file name features :
  _export_geojson true now positions output_file
  = (true, Some (name, GeoJsonDocument features)) ->
  (length features <= length positions)%nat
  /\ (forall f, In f features ->
        exists p la lo,
          In p positions
          /\ f_icao (properties f) = p_icao p
          /\ f_callsign (properties f) = p_callsign p
          /\ f_altitude (properties f) = p_altitude p
          /\ f_speed (properties f) = p_speed p
          /\ f_heading (properties f) = p_heading p
          /\ f_squawk (properties f) = p_squawk p
          /\ f_timestamp (properties f) = p_timestamp p
          /\ p_latitude p = Some la /\ p_longitude p = Some lo
          /\ coordinates f = (lo, la)
          /\ num_truthy la = true /\ num_truthy lo = true)
  /\ (forall p la lo,
        In p positions ->
        p_latitude p = Some la -> p_longitude p = Some lo ->
        num_truthy la = true -> num_truthy lo = true ->
        exists f, In f features /\ feature_of p = Some f
                  /\ coordinates f = (lo, la)).
Proof.
  unfold _export_geojson. intros [= _ <-]. split; [|split].
  - induction positions as [|p ps IH]; [simpl; lia|].
    change (omap feature_of (p :: ps))
      with (match feature_of p with
            | Some f => f :: omap feature_of ps
            | None => omap feature_of ps
            end).
    destruct (feature_of p); simpl; lia.
  - intros f Hf. apply In_features in Hf as (p & Hp & Hf).
    apply feature_of_Some in Hf as (E & la & lo & Hla & Hlo & Hc & Hta & Hto).
    exists p, la, lo. rewrite E. cbn [properties_of f_icao f_callsign
      f_altitude f_speed f_heading f_squawk f_timestamp].
    repeat split; assumption.
  - intros p la lo Hp Hla Hlo Hta Hto.
    exists {| coordinates := (lo, la); properties := properties_of p |}.
    assert (E : feature_of p
                = Some {| coordinates := (lo, la);
                          properties := properties_of p |}).
    { unfold feature_of. now rewrite Hla, Hlo, Hta, Hto. }
    split; [|split; [exact E | reflexivity]].
    apply In_features. eauto.
Qed.

(** The theorem above for the positions (42, -75) and (0, -75): the one
    feature is that of the first position. *)
Lemma export_geojson_features_witness :
  let positions := [position_dict (row_at 42 (-75) 5);
                    position_dict (row_at 0 (-75) 6)] in
  let features := [{| coordinates := (of_Z (-75), of_Z 42);
                      properties :=
                        {| f_icao := "ABC123"; f_callsign := Some "UAL123";
                           f_altitude := Some 35000;
                           f_speed := Some (of_Z 450);
                           f_heading := Some (of_Z 270);
                           f_squawk := Some "1234";
                           f_timestamp := Some (isoformat 5) |} |}] in
  _export_geojson true 9 positions None
  = (true, Some (Generated 0 "geojson", GeoJsonDocument features))
  /\ (length features <= length positions)%nat.
Proof.
  intros positions features. split; [reflexivity|].
  apply (export_geojson_features 9 positions None (Generated 0 "geojson")
           features).
  reflexivity.
Defined.

(** ** [health_check], [start] and [stop] *)

(** X27.  [health_check] reports ["healthy"] exactly when the store is
    reachable, the collection is running and the decoder answers, and
    ["degraded"] otherwise; the issues are then listed, and they are exactly
    the components at fault. *)
Theorem health_check_spec current_aircraft now self :
  let h := AppRest.health_check current_aircraft now self in
  (status h = "healthy" <->
   available (database_ self) = true /\ running self = true
   /\ current_aircraft <> None)
  /\ (status h = "healthy" \/ status h = "degraded")
  /\ (issues h = None <-> status h = "healthy")
  /\ forall l, issues h = Some l ->
       (In "database" l <-> available (database_ self) = false)
       /\ (In "data_collection" l <-> running self = false)
       /\ (In "decoder" l <-> current_aircraft = None).
Proof.
  unfold AppRest.health_check, DatabaseRest.health_check.
  destruct (available (database_ self)), (running self),
    current_aircraft as [n|]; cbn;
    (split; [split; [try discriminate; auto | intros (? & ? & ?); congruence]|]);
    (split; [auto|]);
    (split; [split; try discriminate; auto|]);
    intros l [= <-]; repeat split; simpl; intros; try discriminate;
    try tauto; try congruence; intuition discriminate.
Qed.

(** X28.  On a reachable store whose decoder answers, the application is
    healthy after [start] and degraded after [stop], the only issue being
    the data collection; [start] succeeds after any [stop], and [stop]
    after any [start]. *)
Theorem lifecycle_health n now exits self :
  available (database_ self) = true ->
  status (AppRest.health_check (Some n) now (start self).2) = "healthy"
  /\ status (AppRest.health_check (Some n) now (stop exits self).2)
     = "degraded"
  /\ issues (AppRest.health_check (Some n) now (stop exits self).2)
     = Some ["data_collection"]
  /\ (start (stop exits self).2).1 = true
  /\ (stop exits (start self).2).1 = true.
Proof.
  intros Ha. unfold AppRest.health_check, DatabaseRest.health_check, start, stop.
  destruct (running self) eqn:Hr; cbn; rewrite ?Ha, ?Hr; cbn;
    repeat split.
Qed.

(** The theorem above on a stopped application over an empty store. *)
Lemma lifecycle_health_witness :
  status (AppRest.health_check (Some 10%nat) 9
            (start (app_on (store_of []))).2) = "healthy"
  /\ status (AppRest.health_check (Some 10%nat) 9
               (stop true (app_on (store_of []))).2) = "degraded".
Proof.
  destruct (lifecycle_health 10 9 true (app_on (store_of [])) eq_refl)
    as (H1 & H2 & _).
  split; assumption.
Defined.

(** X29.  Whatever Python's [float] makes of the fields of the bounds:
    when the bounds string has four fields, [float] returns a number for
    each and the file is writable, the JSON export succeeds and holds every
    queried position whose coordinates are different from zero and within
    the bounds; its count is the number of positions it holds. *)
Theorem export_json_holds_positions_in_bounds float start_time end_time
        output_file b now self s0 w0 n0 e0 south west north east p la lo :
  split "," b = [s0; w0; n0; e0] ->
  float s0 = Some south -> float w0 = Some west ->
  float n0 = Some north -> float e0 = Some east ->
  In p (get_aircraft_positions None start_time end_time (Z.to_nat 10000)
                               (database_ self)) ->
  p_latitude p = Some la -> p_longitude p = Some lo ->
  num_truthy la = true -> num_truthy lo = true ->
  in_range south la north = true -> in_range west lo east = true ->
  exists positions,
    export_data_with float "json" start_time end_time output_file (Some b)
                     true now self
    = (true, Some (choose_name output_file now "json",
                   JsonDocument (isoformat now) (length positions) positions))
    /\ In p positions.
Proof.
  intros Hsp Hs Hw Hn He Hp Hla Hlo Hta Hto Hlat Hlon.
  unfold export_data_with.
  destruct (get_aircraft_positions _ _ _ _ _) as [|p0 ps] eqn:E;
    [destruct Hp|].
  rewrite (apply_bounds_four float b s0 w0 n0 e0 south west north east)
    by assumption.
  eexists. split; [reflexivity|].
  apply filter_In. split; [exact Hp|].
  rewrite (inside_nonzero _ _ _ _ p la lo) by assumption.
  now rewrite Hlat, Hlon.
Qed.

(** The theorem above for the position (42, -75) and the bounds
    ["40,-80,45,-70"]. *)
Lemma export_json_holds_positions_in_bounds_witness :
  exists positions,
    export_data "json" None None (Some "out.json") (Some "40,-80,45,-70")
      true 9 (app_on (store_of [row_at 42 (-75) 5; row_at 50 (-75) 6]))
    = (true, Some (Given "out.json",
                   JsonDocument (isoformat 9) (length positions) positions))
    /\ In (position_dict (row_at 42 (-75) 5)) positions.
Proof.
  apply (export_json_holds_positions_in_bounds float_of_string None None
           (Some "out.json") "40,-80,45,-70" 9
           (app_on (store_of [row_at 42 (-75) 5; row_at 50 (-75) 6]))
           "40" "-80" "45" "-70" (of_Z 40) (of_Z (-80)) (of_Z 45) (of_Z (-70))
           (position_dict (row_at 42 (-75) 5)) (of_Z 42) (of_Z (-75)));
    try reflexivity.
  right. left. reflexivity.
Defined.

(** ** The repository's tests of the other utilities *)

Example clean_callsign_dal : clean_callsign (Some "  dal456  ") = Some "DAL456".
Proof. reflexivity. Qed.

Example clean_callsign_hyphen : clean_callsign (Some "SWA-789") = Some "SWA-789".
Proof. reflexivity. Qed.

Example clean_callsign_symbols :
  clean_callsign (Some "UAL123!@#") = Some "UAL123".
Proof. reflexivity. Qed.

Example clean_callsign_blank : clean_callsign (Some "   ") = None.
Proof. reflexivity. Qed.

Example clean_callsign_short : clean_callsign (Some "A") = None.
Proof. reflexivity. Qed.

Example clean_callsign_long : clean_callsign (Some "VERYLONGCALLSIGN") = None.
Proof. reflexivity. Qed.

Example validate_squawk_1234 : validate_squawk (Some "1234") = true.
Proof. reflexivity. Qed.

Example validate_squawk_7777 : validate_squawk (Some "7777") = true.
Proof. reflexivity. Qed.

Example validate_squawk_1238 : validate_squawk (Some "1238") = false.
Proof. reflexivity. Qed.

Example validate_squawk_long : validate_squawk (Some "12345") = false.
Proof. reflexivity. Qed.

Example parse_aircraft_type_us :
  parse_aircraft_type "A12345" = Returns (Some "US Registered").
Proof. reflexivity. Qed.

Example parse_aircraft_type_uk :
  parse_aircraft_type "412345" = Returns (Some "UK Registered").
Proof. reflexivity. Qed.

Example parse_aircraft_type_german :
  parse_aircraft_type "3A2345" = Returns (Some "German Registered").
Proof. reflexivity. Qed.

Example parse_aircraft_type_dutch :
  parse_aircraft_type "4A2345" = Returns (Some "Netherlands Registered").
Proof. reflexivity. Qed.

Example parse_aircraft_type_unknown :
  parse_aircraft_type "123456" = Returns (Some "Unknown").
Proof. reflexivity. Qed.

Example parse_aircraft_type_invalid :
  parse_aircraft_type "INVALID" = Returns None.
Proof. reflexivity. Qed.
